(** * Helm chart workflows: dependency update, unit testing, manifest validation

  A shallow embedding of the three GitHub-action entry points

  - [HelmDependencyUpdate.run] (helm dependency update, sequential or parallel),
  - [HelmTest.run]             (helm unittest, always parallel) with [processChart],
  - [ManifestValidation.run]   (helm template, optional changed-only filter),

  as computations in a small trace-and-exception monad.  Everything the
  actions talk to (process environment, the chart listing, the feature gate
  of [.ci.config.yaml], the helm helper, the job summary) is a field of
  [Collaborators]; the calls the actions make on the job log, the job
  summary, the feature gate and the helm helper are recorded, in program
  order, as a list of [Event]s. *)

From Stdlib Require Import List String Ascii ZArith Bool Arith.
From Stdlib Require Import DecimalString.
Import ListNotations.
Local Open Scope list_scope.
Local Open Scope string_scope.

(** ** JavaScript runtime fragments *)

Module Js.

(** A thrown value: an [Error] instance carrying its [message], or anything
    else ([throw 'text'], [throw 42], a rejected promise with a plain value). *)
Inductive Thrown : Type :=
| ErrorObj (message : string)
| NonError (value : string).

(** [error instanceof Error] *)
Definition instanceofError (e : Thrown) : bool :=
  match e with ErrorObj _ => true | NonError _ => false end.

(** How an [await]ed call (or a settled promise) ends. *)
Inductive Outcome (A : Type) : Type :=
| Resolved (a : A)
| Rejected (e : Thrown).
Arguments Resolved {A} a.
Arguments Rejected {A} e.

Definition isResolved {A} (o : Outcome A) : bool :=
  match o with Resolved _ => true | Rejected _ => false end.

Definition resolvedValue {A} (o : Outcome A) : option A :=
  match o with Resolved a => Some a | Rejected _ => None end.

(** [String(process.env[name])]: an unset variable is [undefined], and
    [String(undefined)] is the nine-letter text. *)
Definition String_ (v : option string) : string :=
  match v with Some s => s | None => "undefined" end.

(** [v || dflt] on an optional string: [undefined] and [''] are falsy. *)
Definition orElse (v : option string) (dflt : string) : string :=
  match v with
  | Some s => if String.eqb s "" then dflt else s
  | None => dflt
  end.

(** [a || b] on strings. *)
Definition or_ (a b : string) : string :=
  if String.eqb a "" then b else a.

Definition lowerAscii (c : ascii) : ascii :=
  let n := nat_of_ascii c in
  if andb (Nat.leb 65 n) (Nat.leb n 90) then ascii_of_nat (n + 32) else c.

(** [s.toLowerCase()] on the ASCII letters (all the inputs compared here
    are the ASCII words true/false). *)
Fixpoint toLowerCase (s : string) : string :=
  match s with
  | EmptyString => EmptyString
  | String c r => String (lowerAscii c) (toLowerCase r)
  end.

(** Template-literal rendering of a non-negative integer. *)
Definition showNat (n : nat) : string :=
  NilEmpty.string_of_uint (Nat.to_uint n).

(** [xs.join(sep)] *)
Definition join (sep : string) (xs : list string) : string :=
  String.concat sep xs.

(** [path.join(a, b)] for the two plain segments used here, without the
    normalisation [path.join] applies to other segments. *)
Definition path_join (a b : string) : string := a ++ "/" ++ b.


(** A [Set<string>] is kept as the list of the values added to it, in
    insertion order; adding a value twice leaves the set as it was. *)
Definition StringSet : Type := list string.

Definition Set_has (s : StringSet) (x : string) : bool :=
  existsb (String.eqb x) s.

Fixpoint Set_elements_from (seen : list string) (s : StringSet) : list string :=
  match s with
  | [] => []
  | x :: r =>
      if existsb (String.eqb x) seen then Set_elements_from seen r
      else x :: Set_elements_from (x :: seen) r
  end.

(** [Array.from(set)] *)
Definition Array_from (s : StringSet) : list string := Set_elements_from [] s.

(** [set.size] *)
Definition Set_size (s : StringSet) : nat := List.length (Array_from s).

End Js.
Export Js.

(** ** What [../../../shared/dist] provides *)

Module constants.

Inductive Functionality : Type :=
| helmChartDependencyUpdate
| helmChartValidation
| helmChartTest.

(** [constants.envvars.GITHUB_WORKSPACE] *)
Definition GITHUB_WORKSPACE : string := "GITHUB_WORKSPACE".

(** [constants.HelmChartFiles.ciConfigYaml] *)
Definition ciConfigYaml : string := ".ci.config.yaml".

End constants.
Export constants.

(** One record of the chart listing; [constants.ListingYamlKeys.dir] and
    [constants.ListingYamlKeys.relativePath] select its two fields. *)
Module ListingYamlKeys.

Record ListingEntry : Type := mkEntry {
  dir : string;
  relativePath : string
}.

End ListingYamlKeys.

(** The parsed listing, [helmChartListingYamlDoc]: chart identifier to
    entry, in the order in which [Object.keys] enumerates it.  A listing is
    a mapping, possibly the empty one; a document that is not a mapping
    ([null], from a file with no content) is outside this type. *)
Definition Listing : Type := list (string * ListingYamlKeys.ListingEntry).

(** [Object.keys(helmChartListingYamlDoc.toJSON())] *)
Definition Object_keys (doc : Listing) : list string := map fst doc.

(** [utils.unrapYamlbyKey(helmChartListingYamlDoc, item)]: the entry
    stored under the key, as [doc.get(key)] does; [None] is [undefined]. *)
Fixpoint unrapYamlbyKey (doc : Listing) (key : string)
    : option ListingYamlKeys.ListingEntry :=
  match doc with
  | [] => None
  | (k, e) :: r => if String.eqb k key then Some e else unrapYamlbyKey r key
  end.

(** The options of one functionality in a chart's [.ci.config.yaml]. *)
Definition FeatureOptions : Type := list (string * bool).

(** [utils.unrapYamlbyKey(options, flag, dflt)] read as a truth value. *)
Fixpoint unrapOption (options : FeatureOptions) (flag : string) (dflt : bool) : bool :=
  match options with
  | [] => dflt
  | (k, v) :: r => if String.eqb k flag then v else unrapOption r flag dflt
  end.

(** What the helm helper hands back from one invocation of the tool. *)
Record ExecOutput : Type := mkExec {
  exitCode : Z;
  stdout : string;
  stderr : string
}.

(** The header cells and the data rows handed to [core.summary.addTable]. *)
Definition Row : Type := list string.

(** ** Observable calls *)

Inductive Event : Type :=
| core_info (message : string)
| core_debug (message : string)
| core_startGroup (name : string)
| core_endGroup
| core_setFailed (message : string)
| summary_addHeading (text : string)
| summary_addRaw (text : string)
| summary_addTable (header : list string) (rows : list Row)
| summary_addBreak
| summary_addDetails (label content : string)
| summary_write
| call_isFunctionEnabled (chartDir : string) (functionality : Functionality)
| call_DependencyUpdate (chartDir : string)
| call_template (chartDir : string) (valueFiles : string) (helmOptions : list string)
| call_unittest (chartDir outputDir : string) (options : list string).

(** An invocation of the external chart-management tool on [chartDir]. *)
Definition isToolCallOn (chartDir : string) (ev : Event) : bool :=
  match ev with
  | call_DependencyUpdate d => String.eqb d chartDir
  | call_template d _ _ => String.eqb d chartDir
  | call_unittest d _ _ => String.eqb d chartDir
  | _ => false
  end.

Definition isToolCall (ev : Event) : bool :=
  match ev with
  | call_DependencyUpdate _ | call_template _ _ _ | call_unittest _ _ _ => true
  | _ => false
  end.

Definition isSetFailed (ev : Event) : bool :=
  match ev with core_setFailed _ => true | _ => false end.

Definition isSummaryWrite (ev : Event) : bool :=
  match ev with summary_write => true | _ => false end.

Definition isSummaryTable (ev : Event) : bool :=
  match ev with summary_addTable _ _ => true | _ => false end.

(** The directories handed to the feature gate, in call order. *)
Fixpoint gateCalls (t : list Event) : list string :=
  match t with
  | [] => []
  | call_isFunctionEnabled d _ :: r => d :: gateCalls r
  | _ :: r => gateCalls r
  end.

(** The messages handed to [core.setFailed], in call order. *)
Fixpoint failures (t : list Event) : list string :=
  match t with
  | [] => []
  | core_setFailed m :: r => m :: failures r
  | _ :: r => failures r
  end.

(** The data rows of the tables added to the summary, in call order. *)
Fixpoint tables (t : list Event) : list (list Row) :=
  match t with
  | [] => []
  | summary_addTable _ rows :: r => rows :: tables r
  | _ :: r => tables r
  end.

(** ** The effect monad: an outcome together with the calls made so far *)

Definition M (A : Type) : Type := (Outcome A * list Event)%type.

Definition ret {A} (a : A) : M A := (Resolved a, []).

Definition throw {A} (e : Thrown) : M A := (Rejected e, []).

Definition bind {A B} (m : M A) (k : A -> M B) : M B :=
  match m with
  | (Resolved a, t) => let (o, t') := k a in (o, (t ++ t')%list)
  | (Rejected e, t) => (Rejected e, t)
  end.

Definition emit (ev : Event) : M unit := (Resolved tt, [ev]).

(** [await p] on a promise that settles as [p]. *)
Definition await {A} (p : Outcome A) : M A := (p, []).

(** [try { body } catch (error) { handler }] *)
Definition try_catch (body : M unit) (handler : Thrown -> M unit) : M unit :=
  match body with
  | (Resolved a, t) => (Resolved a, t)
  | (Rejected e, t) => let (o, t') := handler e in (o, (t ++ t')%list)
  end.

Definition outcome {A} (m : M A) : Outcome A := fst m.
Definition trace {A} (m : M A) : list Event := snd m.

Declare Scope js_scope.
Delimit Scope js_scope with js.
Notation "x <- m ;; k" := (bind m (fun x => k))
  (at level 61, m at next level, right associativity) : js_scope.
Notation "m ;; k" := (bind m (fun _ => k))
  (at level 61, right associativity) : js_scope.
Local Open Scope js_scope.

(** [for (const item of xs) { rows = body(item, rows) }]: the loop threads
    the local array it pushes to and stops at the first throw. *)
Fixpoint for_of {A S} (xs : list A) (body : A -> S -> M S) (s : S) : M S :=
  match xs with
  | [] => ret s
  | x :: r => s' <- body x s ;; for_of r body s'
  end.

(** Calling an [async] function: the calls it makes before its single
    [await] happen at once, and the caller holds a promise for the rest;
    a throw inside only rejects that promise. *)
Definition async_call {B} (m : M B) : M (Outcome B) :=
  (Resolved (outcome m), trace m).

(** [xs.map(async (item) => f(item))]: every callback is started, in
    array order. *)
Fixpoint map_async {A B} (f : A -> M B) (xs : list A) : M (list (Outcome B)) :=
  match xs with
  | [] => ret []
  | x :: r => p <- async_call (f x) ;; ps <- map_async f r ;; ret (p :: ps)
  end.

(** The values of the fulfilled promises, in array order. *)
Fixpoint fulfilled {B} (ps : list (Outcome B)) : list B :=
  match ps with
  | [] => []
  | Resolved b :: r => b :: fulfilled r
  | Rejected _ :: r => fulfilled r
  end.

(** The rejection that settles first: promise [i] settles at instant
    [settle i]; among equal instants the lower index comes first. *)
Fixpoint firstRejection {B} (settle : nat -> nat) (i : nat) (ps : list (Outcome B))
    (best : option (nat * Thrown)) : option (nat * Thrown) :=
  match ps with
  | [] => best
  | Resolved _ :: r => firstRejection settle (S i) r best
  | Rejected e :: r =>
      let best' :=
        match best with
        | None => Some (settle i, e)
        | Some (tb, _) => if Nat.ltb (settle i) tb then Some (settle i, e) else best
        end in
      firstRejection settle (S i) r best'
  end.

(** [await Promise.all(promises)]: the values in array order when every
    promise fulfils, otherwise the rejection that settled first. *)
Definition Promise_all {B} (settle : nat -> nat) (ps : list (Outcome B)) : M (list B) :=
  match firstRejection settle 0 ps None with
  | Some (_, e) => throw e
  | None => ret (fulfilled ps)
  end.

(** ** External collaborators of one run *)

Record Collaborators : Type := mkCollaborators {
  (** [process.env[name]] *)
  process_env : string -> option string;
  (** [core.getInput(name)] *)
  core_getInput : string -> string;
  (** [utilsHelmChart.getListingFileContent(pathGitRepository)] *)
  getListingFileContent : string -> Outcome string;
  (** [yaml.parse(content)], as the document built from it *)
  yaml_parse : string -> Outcome Listing;
  (** [yaml.stringify(doc)] *)
  yaml_stringify : Listing -> string;
  (** [utils.isFunctionEnabled(dir, functionality, dflt)] *)
  isFunctionEnabled : string -> Functionality -> bool -> bool;
  (** [utilsHelmChart.readPipelineFeatureOptions(dir, functionality)];
      [None] is the [false] it returns when there are none *)
  readPipelineFeatureOptions : string -> Functionality -> option FeatureOptions;
  (** [utilsHelmChart.getHelmValueFiles(dir)] *)
  getHelmValueFiles : string -> string;
  (** [utilsHelmChart.DependencyUpdate(dir)] *)
  DependencyUpdate : string -> Outcome ExecOutput;
  (** [utilsHelmChart.template(dir, valueFiles, helmOptions)] *)
  template : string -> string -> list string -> Outcome ExecOutput;
  (** [utilsHelmChart.unittest(dir, chartOutputDir, options)] *)
  unittest : string -> string -> list string -> Outcome ExecOutput;
  (** [utils.detectChangedHelmCharts(repo, content, branch, base, source, target, token)] *)
  detectChangedHelmCharts :
    string -> string -> option string -> string ->
    option string -> option string -> option string -> Outcome StringSet;
  (** how [core.summary.write()] ends *)
  summaryWrite : Outcome unit;
  (** the instant at which the [i]-th promise of a [Promise.all] settles *)
  settleTime : nat -> nat
}.

Module utils.

(** Modelled from the spec: [utils.assertNullOrEmpty], whose source
    ([shared/dist]) is missing.  A required input that is missing or empty
    is refused with the given message; the value handed in is already a
    string, so [Error(message)] is raised exactly on the empty one. *)
Definition assertNullOrEmpty (input message : string) : M unit :=
  if String.eqb input "" then throw (ErrorObj message) else ret tt.

(** The feature gate, with its consultation on record. *)
Definition isFunctionEnabled (w : Collaborators) (chartDir : string)
    (functionality : Functionality) (dflt : bool) : M bool :=
  emit (call_isFunctionEnabled chartDir functionality) ;;
  ret (isFunctionEnabled w chartDir functionality dflt).

End utils.

(** [path.parse(p)]: the parsed path is only ever handed on, so it is kept
    as the text it was parsed from. *)
Definition path_parse (p : string) : string := p.

(** A chart identifier the listing has no entry for: its directory is
    [undefined], and [path.parse(undefined)] is a [TypeError]. *)
Definition noListingEntry {A} : M A :=
  throw (ErrorObj "The path argument must be of type string. Received undefined").

Definition nl : string := String (ascii_of_nat 10) EmptyString.

Definition tableHeader : list string := ["UID Helm Chart"; "Result"; "Folder"].

(** The catch clause shared by the three entry points:
    [if (error instanceof Error) core.setFailed(error.message)]. *)
Definition failOnError (error : Thrown) : M unit :=
  match error with
  | ErrorObj message => emit (core_setFailed message)
  | NonError _ => ret tt
  end.

(** [await core.summary. ... .write()] *)
Definition summary_write_await (w : Collaborators) : M unit :=
  match summaryWrite w with
  | Resolved _ => emit summary_write
  | Rejected e => throw e
  end.

(** ** helm-dependency-update: [run] *)

Module HelmDependencyUpdate.

Definition updated : string := "✅".
Definition disabledMark : string := ":heavy_exclamation_mark:".

(** The callback of the parallel [helmChartKeys.map(async (item) => ...)]. *)
Definition parallelItem (w : Collaborators) (doc : Listing) (item : string) : M Row :=
  match unrapYamlbyKey doc item with
  | None => noListingEntry
  | Some yamlitem =>
      let listingYamlDir := ListingYamlKeys.dir yamlitem in
      let listingYamlRelativePath := ListingYamlKeys.relativePath yamlitem in
      let dir := path_parse listingYamlDir in
      enabled <- utils.isFunctionEnabled w dir helmChartDependencyUpdate true ;;
      if enabled then
        emit (call_DependencyUpdate dir) ;;
        _ <- await (DependencyUpdate w dir) ;;
        ret [item; updated; listingYamlRelativePath]
      else
        ret [item; disabledMark; listingYamlRelativePath]
  end.

(** The body of the sequential [for (const item of helmChartKeys)]. *)
Definition sequentialItem (w : Collaborators) (doc : Listing) (item : string)
    (tableRows : list Row) : M (list Row) :=
  match unrapYamlbyKey doc item with
  | None => noListingEntry
  | Some yamlitem =>
      let listingYamlDir := ListingYamlKeys.dir yamlitem in
      let listingYamlRelativePath := ListingYamlKeys.relativePath yamlitem in
      let dir := path_parse listingYamlDir in
      enabled <- utils.isFunctionEnabled w dir helmChartDependencyUpdate true ;;
      if enabled then
        emit (call_DependencyUpdate dir) ;;
        _ <- await (DependencyUpdate w dir) ;;
        ret (tableRows ++ [[item; updated; listingYamlRelativePath]])%list
      else
        ret (tableRows ++ [[item; disabledMark; listingYamlRelativePath]])%list
  end.

(** The [if (parallelInput) ... else ...] that fills [tableRows]. *)
Definition collectRows (w : Collaborators) (parallelInput : bool) (doc : Listing) : M (list Row) :=
  let helmChartKeys := Object_keys doc in
  if parallelInput then
    emit (core_info "Running helm dependency update in parallel mode") ;;
    promises <- map_async (parallelItem w doc) helmChartKeys ;;
    Promise_all (settleTime w) promises
  else
    emit (core_info "Running helm dependency update in sequential mode") ;;
    for_of helmChartKeys (sequentialItem w doc) [].

Definition legend : string :=
  "✅ = Helm Chart Dependencies Updated " ++ nl ++
  " :heavy_exclamation_mark: = Update Disabled by " ++ ciConfigYaml.

Definition parallelInput (w : Collaborators) : bool :=
  String.eqb (toLowerCase (core_getInput w "parallel")) "true".

(** The [try] block. *)
Definition body (w : Collaborators) : M unit :=
  let GITHUB_WORKSPACE := String_ (process_env w constants.GITHUB_WORKSPACE) in
  utils.assertNullOrEmpty GITHUB_WORKSPACE
    ("Missing env `" ++ constants.GITHUB_WORKSPACE ++ "`!") ;;
  let pathGitRepository := path_parse GITHUB_WORKSPACE in
  helmChartListingFileContent <- await (getListingFileContent w pathGitRepository) ;;
  helmChartListingYamlDoc <- await (yaml_parse w helmChartListingFileContent) ;;
  let parallelInput := parallelInput w in
  emit (core_startGroup "Helm Dependency Update") ;;
  let summaryRawContent :=
    "<details><summary>Found following Helm Charts...</summary>" ++ nl ++ nl ++
    "```yaml" ++ nl ++ yaml_stringify w helmChartListingYamlDoc ++ nl ++ "```" ++
    nl ++ nl ++ "</details>" in
  emit (summary_addHeading "Helm Chart Dependency Update Results") ;;
  emit (summary_addRaw summaryRawContent) ;;
  tableRows <- collectRows w parallelInput helmChartListingYamlDoc ;;
  emit (summary_addTable tableHeader tableRows) ;;
  emit summary_addBreak ;;
  emit (summary_addDetails "Legende" legend) ;;
  summary_write_await w ;;
  emit core_endGroup.

Definition run (w : Collaborators) : M unit :=
  try_catch (body w) failOnError.

End HelmDependencyUpdate.

(** ** helm-test: [processChart] and [run] *)

Module HelmTest.

Inductive Status : Type := passed | failed | skipped | disabled.

Record TestResult : Type := mkResult {
  chart : string;
  status : Status;
  reason : option string;
  relativePath : string
}.

Definition isFailed (r : TestResult) : bool :=
  match status r with failed => true | _ => false end.
Definition isPassed (r : TestResult) : bool :=
  match status r with passed => true | _ => false end.
Definition isSkipped (r : TestResult) : bool :=
  match status r with skipped => true | _ => false end.
Definition isDisabled (r : TestResult) : bool :=
  match status r with disabled => true | _ => false end.

(** The [options] array [processChart] builds from [.ci.config.yaml]. *)
Definition unittestOptions (w : Collaborators) (dir : string) : list string :=
  let pipelineOptions := readPipelineFeatureOptions w dir helmChartTest in
  match pipelineOptions with
  | Some optionsDoc =>
      if unrapOption optionsDoc "--update-snapshot" false
      then ["--update-snapshot"] else []
  | None => []
  end.

(** Process a single Helm chart for unittest. *)
Definition processChart (w : Collaborators) (item : string) (helmChartListingYamlDoc : Listing)
    (outputDir : string) : M TestResult :=
  match unrapYamlbyKey helmChartListingYamlDoc item with
  | None => noListingEntry
  | Some yamlitem =>
      let listingYamlDir := ListingYamlKeys.dir yamlitem in
      let listingYamlRelativePath := ListingYamlKeys.relativePath yamlitem in
      let dir := path_parse listingYamlDir in
      enabled <- utils.isFunctionEnabled w dir helmChartTest true ;;
      if negb enabled then
        ret {| chart := item; status := disabled;
               reason := Some "Disabled by .ci.config.yaml";
               relativePath := listingYamlRelativePath |}
      else
        let options := unittestOptions w dir in
        let chartOutputDir := path_join outputDir item in
        emit (call_unittest dir chartOutputDir options) ;;
        result <- await (unittest w dir chartOutputDir options) ;;
        if andb (Z.eqb (exitCode result) (-1))
                (String.eqb (stderr result) "No tests directory found") then
          ret {| chart := item; status := skipped;
                 reason := Some "No tests directory";
                 relativePath := listingYamlRelativePath |}
        else if Z.eqb (exitCode result) 0 then
          ret {| chart := item; status := passed;
                 reason := None;
                 relativePath := listingYamlRelativePath |}
        else
          ret {| chart := item; status := failed;
                 reason := Some (or_ (or_ (stderr result) (stdout result)) "Unknown error");
                 relativePath := listingYamlRelativePath |}
  end.

Definition statusIcon (s : Status) : string :=
  match s with
  | passed => "✅"
  | failed => "❌"
  | skipped => "⏭️"
  | disabled => ":heavy_exclamation_mark:"
  end.

Definition legend : string :=
  "✅ = Tests passed" ++ nl ++
  "❌ = Tests failed" ++ nl ++
  "⏭️ = Skipped (no tests directory)" ++ nl ++
  ":heavy_exclamation_mark: = Disabled by " ++ ciConfigYaml.

(** [await Promise.all(chartKeys.map(async (item) => await processChart(...)))] *)
Definition collectResults (w : Collaborators) (doc : Listing) (outputDir : string)
    : M (list TestResult) :=
  promises <- map_async (fun item => processChart w item doc outputDir) (Object_keys doc) ;;
  Promise_all (settleTime w) promises.

(** The rest of the [try] block once [results] is there: the summary
    table, the summary line and the verdict. *)
Definition report (w : Collaborators) (chartCount : nat) (results : list TestResult) : M unit :=
  let tableRows :=
    map (fun result => [chart result; statusIcon (status result); relativePath result]) results in
  let failedResults := filter isFailed results in
  let passedResults := filter isPassed results in
  let skippedResults := filter isSkipped results in
  let disabledResults := filter isDisabled results in
  emit (summary_addHeading "Helm Chart Test Results") ;;
  emit (summary_addRaw (nl ++ nl ++ "Processed " ++ showNat chartCount ++ " chart(s)." ++ nl ++ nl)) ;;
  emit (summary_addTable tableHeader tableRows) ;;
  emit summary_addBreak ;;
  emit (summary_addDetails "Legend" legend) ;;
  summary_write_await w ;;
  emit core_endGroup ;;
  emit (core_info ("Summary: " ++ showNat (List.length passedResults) ++ " passed, " ++
                   showNat (List.length failedResults) ++ " failed, " ++
                   showNat (List.length skippedResults) ++ " skipped, " ++
                   showNat (List.length disabledResults) ++ " disabled")) ;;
  if Nat.ltb 0 (List.length failedResults) then
    let failedCharts := join ", " (map chart failedResults) in
    emit (core_setFailed ("Helm tests failed for: " ++ failedCharts))
  else ret tt.

(** The part of the [try] block that ends with [results]; [chartCount]
    is still needed after it. *)
Definition results (w : Collaborators) : M (nat * list TestResult) :=
  let GITHUB_WORKSPACE := String_ (process_env w constants.GITHUB_WORKSPACE) in
  utils.assertNullOrEmpty GITHUB_WORKSPACE
    ("Missing env `" ++ constants.GITHUB_WORKSPACE ++ "`!") ;;
  let pathGitRepository := path_parse GITHUB_WORKSPACE in
  helmChartListingFileContent <- await (getListingFileContent w pathGitRepository) ;;
  helmChartListingYamlDoc <- await (yaml_parse w helmChartListingFileContent) ;;
  let outputDir := path_join GITHUB_WORKSPACE ".helm-test-output" in
  emit (core_startGroup "Helm Chart Unit Testing") ;;
  let chartKeys := Object_keys helmChartListingYamlDoc in
  let chartCount := List.length chartKeys in
  emit (core_info ("Processing " ++ showNat chartCount ++ " chart(s) from listing.")) ;;
  results <- collectResults w helmChartListingYamlDoc outputDir ;;
  ret (chartCount, results).

(** The [try] block. *)
Definition body (w : Collaborators) : M unit :=
  cr <- results w ;;
  report w (fst cr) (snd cr).

Definition run (w : Collaborators) : M unit :=
  try_catch (body w) failOnError.

End HelmTest.

(** ** manifest-validation: [run] *)

Module ManifestValidation.

Definition validated : string := "✅".
Definition disabledMark : string := ":heavy_exclamation_mark:".

(** [if (VALIDATE_CHANGED_ONLY && changedHelmCharts && !changedHelmCharts.has(item))] *)
Definition notInChangedSet (VALIDATE_CHANGED_ONLY : bool)
    (changedHelmCharts : option StringSet) (item : string) : bool :=
  andb VALIDATE_CHANGED_ONLY
    match changedHelmCharts with
    | Some changed => negb (Set_has changed item)
    | None => false
    end.

(** The [helmOptions] array the loop body builds from [.ci.config.yaml]. *)
Definition helmOptions (w : Collaborators) (dir : string) : list string :=
  let options : FeatureOptions :=
    match readPipelineFeatureOptions w dir helmChartValidation with
    | Some o => o
    | None => []
    end in
  ((if unrapOption options "--skip-crds" false then ["--skip-crds"] else []) ++
   (if unrapOption options "--skip-tests" false then ["--skip-tests"] else []) ++
   (if unrapOption options "--include-crds" false then ["--include-crds"] else []) ++
   (if unrapOption options "--dependency-update" true then ["--dependency-update"] else []))%list.

(** The body of [for (const item of Object.keys(...))]. *)
Definition validateItem (w : Collaborators) (doc : Listing) (VALIDATE_CHANGED_ONLY : bool)
    (changedHelmCharts : option StringSet) (item : string) (tableRows : list Row)
    : M (list Row) :=
  if notInChangedSet VALIDATE_CHANGED_ONLY changedHelmCharts item then
    emit (core_debug ("Skipping " ++ item ++ " - not modified")) ;;
    ret tableRows
  else
    match unrapYamlbyKey doc item with
    | None => noListingEntry
    | Some yamlitem =>
        let listingYamlDir := ListingYamlKeys.dir yamlitem in
        let listingYamlRelativePath := ListingYamlKeys.relativePath yamlitem in
        let dir := path_parse listingYamlDir in
        enabled <- utils.isFunctionEnabled w dir helmChartValidation true ;;
        if enabled then
          let helmOptions := helmOptions w dir in
          emit (call_template dir (getHelmValueFiles w dir) helmOptions) ;;
          _ <- await (template w dir (getHelmValueFiles w dir) helmOptions) ;;
          ret (tableRows ++ [[item; validated; listingYamlRelativePath]])%list
        else
          ret (tableRows ++ [[item; disabledMark; listingYamlRelativePath]])%list
    end.

(** The loop that fills [tableRows]. *)
Definition collectRows (w : Collaborators) (doc : Listing) (VALIDATE_CHANGED_ONLY : bool)
    (changedHelmCharts : option StringSet) : M (list Row) :=
  for_of (Object_keys doc) (validateItem w doc VALIDATE_CHANGED_ONLY changedHelmCharts) [].

Definition legend : string :=
  "✅ = Manifest Validated " ++ nl ++
  " :heavy_exclamation_mark: = Validation Disabled by " ++ ciConfigYaml.

(** The [try] block from [core.startGroup] on. *)
Definition validateAll (w : Collaborators) (doc : Listing) (VALIDATE_CHANGED_ONLY : bool)
    (changedHelmCharts : option StringSet) : M unit :=
  emit (core_startGroup "Helm Chart Manifest Validation") ;;
  let summaryRawContent :=
    "<details><summary>Found following Helm Charts...</summary>" ++ nl ++ nl ++
    "```yaml" ++ nl ++ yaml_stringify w doc ++ nl ++ "```" ++
    nl ++ nl ++ "</details>" in
  emit (summary_addHeading "Helm Chart Manifest Validation Results") ;;
  emit (summary_addRaw summaryRawContent) ;;
  tableRows <- collectRows w doc VALIDATE_CHANGED_ONLY changedHelmCharts ;;
  emit (summary_addTable tableHeader tableRows) ;;
  emit summary_addBreak ;;
  emit (summary_addDetails "Legende" legend) ;;
  match (if VALIDATE_CHANGED_ONLY then changedHelmCharts else None) with
  | Some changed =>
      emit (summary_addRaw (nl ++ nl ++ "*Validated only changed charts (" ++
              showNat (Set_size changed) ++ " of " ++
              showNat (List.length (Object_keys doc)) ++ " total charts)*"))
  | None => ret tt
  end ;;
  summary_write_await w ;;
  emit core_endGroup.

(** [core.summary. ... .write()] without [await]: a write that fails is
    not seen by the [try] block. *)
Definition summary_write_detached (w : Collaborators) : M unit :=
  match summaryWrite w with
  | Resolved _ => emit summary_write
  | Rejected _ => ret tt
  end.

Definition VALIDATE_CHANGED_ONLY (w : Collaborators) : bool :=
  String.eqb (toLowerCase (orElse (process_env w "INPUT_VALIDATE_CHANGED_ONLY") "false")) "true".

(** The [try] block. *)
Definition body (w : Collaborators) : M unit :=
  let GITHUB_WORKSPACE := String_ (process_env w constants.GITHUB_WORKSPACE) in
  utils.assertNullOrEmpty GITHUB_WORKSPACE
    ("Missing env `" ++ constants.GITHUB_WORKSPACE ++ "`!") ;;
  let VALIDATE_CHANGED_ONLY := VALIDATE_CHANGED_ONLY w in
  let BRANCH_NAME := process_env w "INPUT_BRANCH_NAME" in
  let BASE_BRANCH_NAME := orElse (process_env w "INPUT_BASE_BRANCH_NAME") "main" in
  let SOURCE_GIT_REPO_URL := process_env w "INPUT_SOURCE_GIT_REPO_URL" in
  let TARGET_GIT_REPO_URL := process_env w "INPUT_TARGET_GIT_REPO_URL" in
  let TOKEN := process_env w "INPUT_TOKEN" in
  let pathGitRepository := path_parse GITHUB_WORKSPACE in
  helmChartListingFileContent <- await (getListingFileContent w pathGitRepository) ;;
  helmChartListingYamlDoc <- await (yaml_parse w helmChartListingFileContent) ;;
  if VALIDATE_CHANGED_ONLY then
    changedHelmCharts <- await (detectChangedHelmCharts w pathGitRepository
                                  helmChartListingFileContent BRANCH_NAME BASE_BRANCH_NAME
                                  SOURCE_GIT_REPO_URL TARGET_GIT_REPO_URL TOKEN) ;;
    if Nat.eqb (Set_size changedHelmCharts) 0 then
      emit (core_info "No Helm charts modified in this PR. Skipping validation.") ;;
      emit (summary_addHeading "Helm Chart Manifest Validation Results") ;;
      emit (summary_addRaw "✅ No Helm charts were modified in this PR. Validation skipped.") ;;
      summary_write_detached w
    else
      emit (core_info ("Found " ++ showNat (Set_size changedHelmCharts) ++
                       " changed Helm chart(s): " ++ join ", " (Array_from changedHelmCharts))) ;;
      validateAll w helmChartListingYamlDoc VALIDATE_CHANGED_ONLY (Some changedHelmCharts)
  else
    validateAll w helmChartListingYamlDoc VALIDATE_CHANGED_ONLY None.

Definition run (w : Collaborators) : M unit :=
  try_catch (body w) failOnError.

End ManifestValidation.

(** ** Concrete runs *)

Module Scenario.

Definition chartA : string := "chartA".
Definition chartB : string := "chartB".

(** The listing [{chartA, chartB}] of the scenarios. *)
Definition listingAB : Listing :=
  [ (chartA, ListingYamlKeys.mkEntry "/ws/charts/chartA" "charts/chartA");
    (chartB, ListingYamlKeys.mkEntry "/ws/charts/chartB" "charts/chartB") ].

Definition listingA : Listing :=
  [ (chartA, ListingYamlKeys.mkEntry "/ws/charts/chartA" "charts/chartA") ].

Definition envOf (vars : list (string * string)) (name : string) : option string :=
  option_map snd (find (fun kv => String.eqb (fst kv) name) vars).

Definition ok : ExecOutput := mkExec 0 "" "".
Definition boom : ExecOutput := mkExec 1 "" "boom".

(** A run with the given environment, [parallel] input, listing, feature
    gate, per-directory tool outcome and changed-set. *)
Definition world (vars : list (string * string)) (parallel : string) (doc : Listing)
    (gate : string -> Functionality -> bool) (tool : string -> Outcome ExecOutput)
    (changed : Outcome StringSet) : Collaborators :=
  {| process_env := envOf vars;
     core_getInput := fun name => if String.eqb name "parallel" then parallel else "";
     getListingFileContent := fun _ => Resolved "listing-content";
     yaml_parse := fun _ => Resolved doc;
     yaml_stringify := fun _ => "listing-content";
     isFunctionEnabled := fun d f _ => gate d f;
     readPipelineFeatureOptions := fun _ _ => None;
     getHelmValueFiles := fun _ => "";
     DependencyUpdate := tool;
     template := fun d _ _ => tool d;
     unittest := fun d _ _ => tool d;
     detectChangedHelmCharts := fun _ _ _ _ _ _ _ => changed;
     summaryWrite := Resolved tt;
     settleTime := fun i => i |}.

Definition ws : list (string * string) := [("GITHUB_WORKSPACE", "/ws")].

Definition allEnabled (d : string) (f : Functionality) : bool := true.

(** chartA's tool exits 1 with "boom" on standard error, chartB's exits 0. *)
Definition boomOnA (d : string) : Outcome ExecOutput :=
  if String.eqb d "/ws/charts/chartA" then Resolved boom else Resolved ok.

(** helm-test over [{chartA, chartB}] with chartA failing. *)
Definition testRunWithFailure : Collaborators :=
  world ws "" listingAB allEnabled boomOnA (Resolved []).

(** Every invocation of the tool exits 1 with "boom" on standard error. *)
Definition alwaysBoom : Collaborators :=
  world ws "" listingA allEnabled (fun _ => Resolved boom) (Resolved []).

(** The helper call on chartA throws [Error("boom")], the one on chartB
    returns exit code 0. *)
Definition throwsOnA : Collaborators :=
  world ws "" listingAB allEnabled
    (fun d => if String.eqb d "/ws/charts/chartA"
              then Rejected (ErrorObj "boom") else Resolved ok)
    (Resolved []).

(** Validation of changed charts only, with nothing changed. *)
Definition nothingChanged : Collaborators :=
  world (("INPUT_VALIDATE_CHANGED_ONLY", "true") :: ws) "" listingAB allEnabled
    (fun _ => Resolved ok) (Resolved []).


(** The helm helper rejects with a plain text, not an [Error]. *)
Definition throwsText : Collaborators :=
  world ws "" listingAB allEnabled (fun _ => Rejected (NonError "helm: killed")) (Resolved []).

(** The workspace variable is not set at all. *)
Definition missingWorkspace : Collaborators :=
  world [] "" listingA allEnabled (fun _ => Resolved ok) (Resolved []).

(** The workspace variable is set to the empty text. *)
Definition emptyWorkspace : Collaborators :=
  world [("GITHUB_WORKSPACE", "")] "" listingA allEnabled (fun _ => Resolved ok) (Resolved []).

(** chartA's [.ci.config.yaml] disables every functionality. *)
Definition chartADisabled : Collaborators :=
  world ws "" listingAB (fun d _ => negb (String.eqb d "/ws/charts/chartA"))
    (fun _ => Resolved ok) (Resolved []).

(** The listing file cannot be read: the helper throws [Error("ENOENT")]. *)
Definition unreadableListing : Collaborators :=
  {| process_env := envOf ws;
     core_getInput := fun _ => "";
     getListingFileContent := fun _ => Rejected (ErrorObj "ENOENT");
     yaml_parse := fun _ => Resolved listingAB;
     yaml_stringify := fun _ => "listing-content";
     isFunctionEnabled := fun _ _ _ => true;
     readPipelineFeatureOptions := fun _ _ => None;
     getHelmValueFiles := fun _ => "";
     DependencyUpdate := fun _ => Resolved ok;
     template := fun _ _ _ => Resolved ok;
     unittest := fun _ _ _ => Resolved ok;
     detectChangedHelmCharts := fun _ _ _ _ _ _ _ => Resolved [];
     summaryWrite := Resolved tt;
     settleTime := fun i => i |}.

(** Validation of changed charts only, with a change detection that throws. *)
Definition detectionFails : Collaborators :=
  world (("INPUT_VALIDATE_CHANGED_ONLY", "true") :: ws) "" listingAB allEnabled
    (fun _ => Resolved ok) (Rejected (ErrorObj "git diff failed")).

(** A listing that is the empty mapping. *)
Definition noCharts : Collaborators :=
  world ws "" [] allEnabled (fun _ => Resolved ok) (Resolved []).


Definition failedA : HelmTest.TestResult :=
  HelmTest.mkResult chartA HelmTest.failed (Some "boom") "charts/chartA".

Definition passedB : HelmTest.TestResult :=
  HelmTest.mkResult chartB HelmTest.passed None "charts/chartB".

End Scenario.

(** ** Predicates the properties are stated with *)

(** Every invocation of the tool that [ev] stands for is on a directory
    the feature gate enables for [functionality]. *)
Definition toolCallsGated (w : Collaborators) (functionality : Functionality)
    (ev : Event) : Prop :=
  forall d, isToolCallOn d ev = true -> isFunctionEnabled w d functionality true = true.

(** [s.includes(part)] *)
Definition includes (s part : string) : Prop :=
  exists before after, s = before ++ part ++ after.

(** No event of the trace is a call of [core.setFailed]. *)
Definition noSetFailed (ev : Event) : Prop := isSetFailed ev = false.

(** No event of the trace is a completed [core.summary.write()]. *)
Definition noSummaryWrite (ev : Event) : Prop := isSummaryWrite ev = false.

(** [row[0]], the chart identifier of a table row. *)
Definition rowChart (row : Row) : string := hd "" row.

(** What a loop body that pushes the value of [o] appends to the array. *)
Definition pushed {B} (o : Outcome B) : Outcome (list B) :=
  match o with
  | Resolved b => Resolved [b]
  | Rejected e => Rejected e
  end.

(** The same run with the [parallel] input set to [value]. *)
Definition withParallel (w : Collaborators) (value : string) : Collaborators :=
  {| process_env := process_env w;
     core_getInput := fun name =>
       if String.eqb name "parallel" then value else core_getInput w name;
     getListingFileContent := getListingFileContent w;
     yaml_parse := yaml_parse w;
     yaml_stringify := yaml_stringify w;
     isFunctionEnabled := isFunctionEnabled w;
     readPipelineFeatureOptions := readPipelineFeatureOptions w;
     getHelmValueFiles := getHelmValueFiles w;
     DependencyUpdate := DependencyUpdate w;
     template := template w;
     unittest := unittest w;
     detectChangedHelmCharts := detectChangedHelmCharts w;
     summaryWrite := summaryWrite w;
     settleTime := settleTime w |}.

(** No event of the trace is a [core.summary.addTable]. *)
Definition noSummaryTable (ev : Event) : Prop := isSummaryTable ev = false.

(** The directory the listing gives for a chart identifier. *)
Definition dirOf (doc : Listing) (item : string) : string :=
  match unrapYamlbyKey doc item with
  | Some entry => ListingYamlKeys.dir entry
  | None => ""
  end.

(** The arguments [ManifestValidation.run] hands to
    [utils.detectChangedHelmCharts]. *)
Definition detectedChanges (w : Collaborators) (content : string) : Outcome StringSet :=
  detectChangedHelmCharts w
    (path_parse (String_ (process_env w constants.GITHUB_WORKSPACE)))
    content
    (process_env w "INPUT_BRANCH_NAME")
    (orElse (process_env w "INPUT_BASE_BRANCH_NAME") "main")
    (process_env w "INPUT_SOURCE_GIT_REPO_URL")
    (process_env w "INPUT_TARGET_GIT_REPO_URL")
    (process_env w "INPUT_TOKEN").

(** The catch clause let the run end as if nothing had happened: [run]
    resolves, makes no call beyond those of its [try] block, never calls
    [core.setFailed] and has written no summary. *)
Definition swallowed (body run : M unit) : Prop :=
  outcome run = Resolved tt /\
  trace run = trace body /\
  failures (trace run) = [] /\
  (forall ev, In ev (trace run) -> isSummaryWrite ev = false).

(** A computation that, when it throws, has made only calls that satisfy [P]. *)
Definition quietWhenRejected {A} (P : Event -> Prop) (m : M A) : Prop :=
  isResolved (outcome m) = false -> Forall P (trace m).

(** The directories the tool is invoked on, in call order. *)
Fixpoint toolCalls (t : list Event) : list string :=
  match t with
  | [] => []
  | call_DependencyUpdate d :: r => d :: toolCalls r
  | call_template d _ _ :: r => d :: toolCalls r
  | call_unittest d _ _ :: r => d :: toolCalls r
  | _ :: r => toolCalls r
  end.

(** The row helm-test puts in the summary table for one result. *)
Definition resultRow (result : HelmTest.TestResult) : Row :=
  [HelmTest.chart result; HelmTest.statusIcon (HelmTest.status result);
   HelmTest.relativePath result].

(** The same run with its promises settling at the instants [settle]. *)
Definition withSettleTime (w : Collaborators) (settle : nat -> nat) : Collaborators :=
  {| process_env := process_env w;
     core_getInput := core_getInput w;
     getListingFileContent := getListingFileContent w;
     yaml_parse := yaml_parse w;
     yaml_stringify := yaml_stringify w;
     isFunctionEnabled := isFunctionEnabled w;
     readPipelineFeatureOptions := readPipelineFeatureOptions w;
     getHelmValueFiles := getHelmValueFiles w;
     DependencyUpdate := DependencyUpdate w;
     template := template w;
     unittest := unittest w;
     detectChangedHelmCharts := detectChangedHelmCharts w;
     summaryWrite := summaryWrite w;
     settleTime := settle |}.

(** Two computations that make the same calls and end with the same value,
    or both with a throw. *)
Definition sameButForTheThrow {A} (m m' : M A) : Prop :=
  trace m = trace m' /\ resolvedValue (outcome m) = resolvedValue (outcome m').

(** * Properties *)

(** ** The monad *)

Lemma outcome_bind {A B} (m : M A) (k : A -> M B) :
  outcome (bind m k) =
  match outcome m with
  | Resolved a => outcome (k a)
  | Rejected e => Rejected e
  end.
Proof.
  destruct m as [[a|e] t]; simpl; [destruct (k a)|]; reflexivity.
Qed.

Lemma trace_bind {A B} (m : M A) (k : A -> M B) :
  trace (bind m k) =
  (trace m ++ match outcome m with
              | Resolved a => trace (k a)
              | Rejected _ => []
              end)%list.
Proof.
  destruct m as [[a|e] t]; simpl; [destruct (k a)|rewrite app_nil_r]; reflexivity.
Qed.

Lemma bind_resolved {A B} (a : A) (t : list Event) (k : A -> M B) :
  bind (Resolved a, t) k = (outcome (k a), (t ++ trace (k a))%list).
Proof. simpl. destruct (k a); reflexivity. Qed.

Lemma outcome_try_catch (body : M unit) (handler : Thrown -> M unit) :
  outcome (try_catch body handler) =
  match outcome body with
  | Resolved a => Resolved a
  | Rejected e => outcome (handler e)
  end.
Proof.
  destruct body as [[a|e] t]; simpl; [|destruct (handler e)]; reflexivity.
Qed.

Lemma trace_try_catch (body : M unit) (handler : Thrown -> M unit) :
  trace (try_catch body handler) =
  (trace body ++ match outcome body with
                 | Resolved _ => []
                 | Rejected e => trace (handler e)
                 end)%list.
Proof.
  destruct body as [[a|e] t]; simpl; [rewrite app_nil_r|destruct (handler e)]; reflexivity.
Qed.

Lemma gateCalls_app (a b : list Event) :
  gateCalls (a ++ b) = (gateCalls a ++ gateCalls b)%list.
Proof.
  induction a as [|ev a IH]; simpl; [reflexivity|].
  destruct ev; simpl; rewrite IH; reflexivity.
Qed.

Lemma failures_app (a b : list Event) :
  failures (a ++ b) = (failures a ++ failures b)%list.
Proof.
  induction a as [|ev a IH]; simpl; [reflexivity|].
  destruct ev; simpl; rewrite IH; reflexivity.
Qed.

Lemma tables_app (a b : list Event) :
  tables (a ++ b) = (tables a ++ tables b)%list.
Proof.
  induction a as [|ev a IH]; simpl; [reflexivity|].
  destruct ev; simpl; rewrite IH; reflexivity.
Qed.

(** ** [Array.map] with an async callback, and [Promise.all] *)

Lemma outcome_map_async {A B} (f : A -> M B) (xs : list A) :
  outcome (map_async f xs) = Resolved (map (fun x => outcome (f x)) xs).
Proof.
  induction xs as [|x r IH]; cbn [map_async map]; [reflexivity|].
  unfold async_call. rewrite bind_resolved. cbn [outcome fst].
  rewrite outcome_bind, IH. reflexivity.
Qed.

Lemma trace_map_async {A B} (f : A -> M B) (xs : list A) :
  trace (map_async f xs) = flat_map (fun x => trace (f x)) xs.
Proof.
  induction xs as [|x r IH]; cbn [map_async flat_map]; [reflexivity|].
  unfold async_call. rewrite bind_resolved. cbn [trace snd].
  rewrite trace_bind, IH, outcome_map_async. cbn [ret trace snd].
  rewrite app_nil_r. reflexivity.
Qed.

Lemma firstRejection_some {B} (settle : nat -> nat) (ps : list (Outcome B)) :
  forall i best, best <> None -> firstRejection settle i ps best <> None.
Proof.
  induction ps as [|[b|e] r IH]; simpl; intros i best Hb; auto.
  apply IH. destruct best as [[tb eb]|]; [|congruence].
  destruct (Nat.ltb (settle i) tb); congruence.
Qed.

Lemma firstRejection_none {B} (settle : nat -> nat) (ps : list (Outcome B)) :
  forall i, firstRejection settle i ps None = None <-> forallb isResolved ps = true.
Proof.
  induction ps as [|[b|e] r IH]; simpl; intros i.
  - tauto.
  - apply IH.
  - split; [|discriminate]. intros H. exfalso.
    revert H. apply firstRejection_some. discriminate.
Qed.

(** The rejection [Promise.all] reports is the rejection of one of the
    promises. *)
Lemma firstRejection_in {B} (settle : nat -> nat) (ps : list (Outcome B)) :
  forall i best t e, firstRejection settle i ps best = Some (t, e) ->
  best = Some (t, e) \/ In (Rejected e) ps.
Proof.
  induction ps as [|[b|e'] r IH]; simpl; intros i best t e H.
  - now left.
  - apply IH in H. tauto.
  - apply IH in H. destruct H as [H|H]; [|tauto].
    destruct best as [[tb eb]|].
    + destruct (Nat.ltb (settle i) tb); [|now left].
      injection H as <- <-. right. now left.
    + injection H as <- <-. right. now left.
Qed.

Lemma Promise_all_fulfilled {B} (settle : nat -> nat) (ps : list (Outcome B)) :
  forallb isResolved ps = true -> Promise_all settle ps = ret (fulfilled ps).
Proof.
  intros H. unfold Promise_all.
  apply (firstRejection_none settle ps 0) in H. rewrite H. reflexivity.
Qed.

Lemma Promise_all_rejected {B} (settle : nat -> nat) (ps : list (Outcome B)) :
  forallb isResolved ps = false ->
  exists e, Promise_all settle ps = throw e /\ In (Rejected e) ps.
Proof.
  intros H. unfold Promise_all.
  destruct (firstRejection settle 0 ps None) as [[t e]|] eqn:E.
  - exists e. split; [reflexivity|].
    apply firstRejection_in in E. destruct E as [E|E]; [discriminate|assumption].
  - apply firstRejection_none in E. congruence.
Qed.

(** ** [processChart]: classification of the tool outcome *)

Lemma processChart_enabled (w : Collaborators) (item : string) (doc : Listing)
    (outputDir : string) (entry : ListingYamlKeys.ListingEntry) (result : ExecOutput) :
  unrapYamlbyKey doc item = Some entry ->
  isFunctionEnabled w (ListingYamlKeys.dir entry) helmChartTest true = true ->
  unittest w (ListingYamlKeys.dir entry) (path_join outputDir item)
    (HelmTest.unittestOptions w (ListingYamlKeys.dir entry)) = Resolved result ->
  HelmTest.processChart w item doc outputDir =
  (Resolved
     (if andb (Z.eqb (exitCode result) (-1))
              (String.eqb (stderr result) "No tests directory found")
      then HelmTest.mkResult item HelmTest.skipped (Some "No tests directory")
             (ListingYamlKeys.relativePath entry)
      else if Z.eqb (exitCode result) 0
      then HelmTest.mkResult item HelmTest.passed None (ListingYamlKeys.relativePath entry)
      else HelmTest.mkResult item HelmTest.failed
             (Some (or_ (or_ (stderr result) (stdout result)) "Unknown error"))
             (ListingYamlKeys.relativePath entry)),
   [call_isFunctionEnabled (ListingYamlKeys.dir entry) helmChartTest;
    call_unittest (ListingYamlKeys.dir entry) (path_join outputDir item)
      (HelmTest.unittestOptions w (ListingYamlKeys.dir entry))]).
Proof.
  intros Hlook Hen Htool. unfold HelmTest.processChart. rewrite Hlook.
  unfold utils.isFunctionEnabled, path_parse. cbn [emit ret bind app].
  rewrite Hen. cbn [negb]. rewrite Htool. unfold await. cbn [bind app].
  destruct (andb _ _); [reflexivity|].
  destruct (Z.eqb _ _); reflexivity.
Qed.

Lemma or_nonempty (a b : string) : a <> "" -> or_ a b = a.
Proof.
  intros H. unfold or_. destruct (String.eqb_spec a ""); [contradiction|reflexivity].
Qed.

Lemma or_empty (b : string) : or_ "" b = b.
Proof. reflexivity. Qed.

(** C4 (as amended): for a chart on which helm unittest is invoked and
    returns, [processChart] answers [passed] on exit code 0; [skipped] with
    reason "No tests directory" on the sentinel, which is exit code -1
    together with the captured standard error "No tests directory found";
    and [failed] on every other outcome (exit code -1 with any other standard
    error included), with reason the standard error, else the standard
    output, else "Unknown error". *)
Theorem processChart_classifies_tool_outcome
    (w : Collaborators) (item : string) (doc : Listing) (outputDir : string)
    (entry : ListingYamlKeys.ListingEntry) (result : ExecOutput) :
  unrapYamlbyKey doc item = Some entry ->
  isFunctionEnabled w (ListingYamlKeys.dir entry) helmChartTest true = true ->
  unittest w (ListingYamlKeys.dir entry) (path_join outputDir item)
    (HelmTest.unittestOptions w (ListingYamlKeys.dir entry)) = Resolved result ->
  let r := outcome (HelmTest.processChart w item doc outputDir) in
  let rel := ListingYamlKeys.relativePath entry in
  (exitCode result = 0%Z ->
     r = Resolved (HelmTest.mkResult item HelmTest.passed None rel)) /\
  (exitCode result = (-1)%Z -> stderr result = "No tests directory found" ->
     r = Resolved (HelmTest.mkResult item HelmTest.skipped (Some "No tests directory") rel)) /\
  (exitCode result <> 0%Z ->
   exitCode result <> (-1)%Z \/ stderr result <> "No tests directory found" ->
     exists why,
       r = Resolved (HelmTest.mkResult item HelmTest.failed (Some why) rel) /\
       (stderr result <> "" -> why = stderr result) /\
       (stderr result = "" -> stdout result <> "" -> why = stdout result) /\
       (stderr result = "" -> stdout result = "" -> why = "Unknown error")).
Proof.
  intros Hlook Hen Htool r rel. subst r rel.
  rewrite (processChart_enabled w item doc outputDir entry result Hlook Hen Htool).
  cbn [outcome fst].
  repeat split.
  - intros H0. rewrite H0. reflexivity.
  - intros H1 Herr. rewrite H1, Herr. reflexivity.
  - intros Hnz Hns.
    assert (Hsent : andb (Z.eqb (exitCode result) (-1))
                      (String.eqb (stderr result) "No tests directory found") = false).
    { destruct Hns as [Hc|He].
      - apply Z.eqb_neq in Hc. rewrite Hc. reflexivity.
      - apply String.eqb_neq in He. rewrite He. apply andb_false_r. }
    rewrite Hsent. apply Z.eqb_neq in Hnz. rewrite Hnz.
    eexists. split; [reflexivity|]. repeat split.
    + intros H. rewrite (or_nonempty _ _ H). apply or_nonempty. assumption.
    + intros H H'. rewrite H, or_empty. apply or_nonempty. assumption.
    + intros H H'. rewrite H, H'. reflexivity.
Qed.

Lemma processChart_classifies_tool_outcome_witness :
  outcome (HelmTest.processChart
             (Scenario.world Scenario.ws "" Scenario.listingAB Scenario.allEnabled
                (fun _ => Resolved (mkExec (-1) "" "No tests directory found")) (Resolved []))
             Scenario.chartB Scenario.listingAB "/ws/.helm-test-output")
  = Resolved (HelmTest.mkResult Scenario.chartB HelmTest.skipped
                (Some "No tests directory") "charts/chartB").
Proof.
  apply (processChart_classifies_tool_outcome
           (Scenario.world Scenario.ws "" Scenario.listingAB Scenario.allEnabled
              (fun _ => Resolved (mkExec (-1) "" "No tests directory found")) (Resolved []))
           Scenario.chartB Scenario.listingAB "/ws/.helm-test-output"
           (ListingYamlKeys.mkEntry "/ws/charts/chartB" "charts/chartB")
           (mkExec (-1) "" "No tests directory found")
           eq_refl eq_refl eq_refl); reflexivity.
Defined.

(** C4, as first stated, fails: exit code -1 alone is not the sentinel.
    With standard error "boom" the chart is [failed] with that reason, not
    [skipped]. *)
Lemma sentinel_exit_code_with_other_stderr_is_failed :
  exitCode (mkExec (-1) "" "boom") = (-1)%Z /\
  outcome (HelmTest.processChart
             (Scenario.world Scenario.ws "" Scenario.listingA Scenario.allEnabled
                (fun _ => Resolved (mkExec (-1) "" "boom")) (Resolved []))
             Scenario.chartA Scenario.listingA "/ws/.helm-test-output")
  = Resolved (HelmTest.mkResult Scenario.chartA HelmTest.failed (Some "boom") "charts/chartA").
Proof. split; reflexivity. Qed.

(** ** Events of composite computations *)

Section TraceForall.

Variable P : Event -> Prop.

Lemma Forall_trace_bind {A B} (m : M A) (k : A -> M B) :
  Forall P (trace m) ->
  (forall a, outcome m = Resolved a -> Forall P (trace (k a))) ->
  Forall P (trace (bind m k)).
Proof.
  intros Hm Hk. rewrite trace_bind. apply Forall_app. split; [assumption|].
  destruct (outcome m) as [a|e]; [apply Hk; reflexivity | constructor].
Qed.

Lemma Forall_trace_emit (ev : Event) : P ev -> Forall P (trace (emit ev)).
Proof. intros H. repeat constructor. assumption. Qed.

Lemma Forall_trace_ret {A} (a : A) : Forall P (trace (ret a)).
Proof. constructor. Qed.

Lemma Forall_trace_throw {A} (e : Thrown) : Forall P (trace (@throw A e)).
Proof. constructor. Qed.

Lemma Forall_trace_await {A} (p : Outcome A) : Forall P (trace (await p)).
Proof. constructor. Qed.

Lemma Forall_trace_for_of {A S} (xs : list A) (body : A -> S -> M S) :
  (forall x s, In x xs -> Forall P (trace (body x s))) ->
  forall s, Forall P (trace (for_of xs body s)).
Proof.
  induction xs as [|x r IH]; intros Hb s; cbn [for_of].
  - constructor.
  - apply Forall_trace_bind.
    + apply Hb. now left.
    + intros s' _. apply IH. intros y s0 Hy. apply Hb. now right.
Qed.

Lemma Forall_trace_map_async {A B} (f : A -> M B) (xs : list A) :
  (forall x, In x xs -> Forall P (trace (f x))) ->
  Forall P (trace (map_async f xs)).
Proof.
  intros Hf. rewrite trace_map_async.
  induction xs as [|x r IH]; cbn [flat_map]; [constructor|].
  apply Forall_app. split.
  - apply Hf. now left.
  - apply IH. intros y Hy. apply Hf. now right.
Qed.

Lemma Forall_trace_Promise_all {B} (settle : nat -> nat) (ps : list (Outcome B)) :
  Forall P (trace (Promise_all settle ps)).
Proof.
  unfold Promise_all. destruct (firstRejection settle 0 ps None) as [[t e]|]; constructor.
Qed.

Lemma Forall_trace_try_catch (body : M unit) (handler : Thrown -> M unit) :
  Forall P (trace body) ->
  (forall e, outcome body = Rejected e -> Forall P (trace (handler e))) ->
  Forall P (trace (try_catch body handler)).
Proof.
  intros Hb Hh. rewrite trace_try_catch. apply Forall_app. split; [assumption|].
  destruct (outcome body) as [a|e]; [constructor | apply Hh; reflexivity].
Qed.

End TraceForall.

(** Walks a computation written with [bind], [emit], [await] and
    conditionals, leaving one goal [P ev] for every event it can emit. *)
Ltac walk_trace :=
  repeat first
    [ apply Forall_trace_ret
    | apply Forall_trace_throw
    | apply Forall_trace_await
    | apply Forall_trace_Promise_all
    | apply Forall_trace_emit
    | apply Forall_trace_bind; [ | intros ? ? ]
    | apply Forall_trace_map_async; intros ? ?
    | apply Forall_trace_for_of; intros ? ? ?
    | match goal with
      | |- Forall _ (trace (if ?b then _ else _)) => destruct b eqn:?
      | |- Forall _ (trace (match ?o with Some _ => _ | None => _ end)) => destruct o eqn:?
      | |- Forall _ (trace (match ?o with Resolved _ => _ | Rejected _ => _ end)) =>
          destruct o eqn:?
      end ].

(** ** The feature gate stands before every invocation of the tool *)

Lemma gate_outcome (w : Collaborators) (d : string) (F : Functionality) (dflt a : bool) :
  outcome (utils.isFunctionEnabled w d F dflt) = Resolved a ->
  a = isFunctionEnabled w d F dflt.
Proof. cbn. congruence. Qed.

Ltac not_tool :=
  let d := fresh in let H := fresh in intros d H; simpl in H; discriminate H.

Ltac gated_call :=
  let d := fresh "d" in let H := fresh "H" in
  intros d H; cbn [isToolCallOn] in H; apply String.eqb_eq in H; subst d;
  match goal with
  | G : outcome (utils.isFunctionEnabled _ _ _ _) = Resolved _ |- _ =>
      apply gate_outcome in G; rewrite <- G
  end;
  first [ reflexivity
        | match goal with
          | E : negb _ = false |- _ => apply negb_false_iff in E; exact E
          end
        | congruence ].

Lemma HelmTest_run_gated (w : Collaborators) :
  Forall (toolCallsGated w helmChartTest) (trace (HelmTest.run w)).
Proof.
  unfold HelmTest.run, HelmTest.body, HelmTest.results, HelmTest.collectResults,
    HelmTest.report, HelmTest.processChart, noListingEntry, failOnError,
    utils.assertNullOrEmpty, summary_write_await.
  apply Forall_trace_try_catch; [|intros [m|v] _].
  all: walk_trace; try not_tool; try gated_call.
Qed.

Lemma ManifestValidation_run_gated (w : Collaborators) :
  Forall (toolCallsGated w helmChartValidation) (trace (ManifestValidation.run w)).
Proof.
  unfold ManifestValidation.run, ManifestValidation.body, ManifestValidation.validateAll,
    ManifestValidation.collectRows, ManifestValidation.validateItem,
    ManifestValidation.summary_write_detached, noListingEntry, failOnError,
    utils.assertNullOrEmpty, summary_write_await.
  apply Forall_trace_try_catch; [|intros [m|v] _].
  all: walk_trace; try not_tool; try gated_call.
Qed.

Lemma HelmDependencyUpdate_run_gated (w : Collaborators) :
  Forall (toolCallsGated w helmChartDependencyUpdate) (trace (HelmDependencyUpdate.run w)).
Proof.
  unfold HelmDependencyUpdate.run, HelmDependencyUpdate.body,
    HelmDependencyUpdate.collectRows, HelmDependencyUpdate.parallelItem,
    HelmDependencyUpdate.sequentialItem, noListingEntry, failOnError,
    utils.assertNullOrEmpty, summary_write_await.
  apply Forall_trace_try_catch; [|intros [m|v] _].
  all: walk_trace; try not_tool; try gated_call.
Qed.

Lemma gated_disabled_no_call (w : Collaborators) (F : Functionality) (t : list Event)
    (d : string) :
  Forall (toolCallsGated w F) t ->
  isFunctionEnabled w d F true = false ->
  forall ev, In ev t -> isToolCallOn d ev = false.
Proof.
  intros Ht Hd ev Hin. rewrite Forall_forall in Ht.
  destruct (isToolCallOn d ev) eqn:E; [|reflexivity].
  apply (Ht ev Hin) in E. congruence.
Qed.

(** C6: a chart whose configuration disables the functionality being run
    gets exactly the [disabled] result (status [disabled] for helm-test, the
    exclamation-mark row for validation and dependency update) from a step
    that does nothing but consult the feature gate, and no event of the whole
    run is an invocation of the tool on that chart's directory. *)
Theorem disabled_chart_is_reported_disabled_and_never_invoked
    (w : Collaborators) (doc : Listing) (item : string)
    (entry : ListingYamlKeys.ListingEntry) :
  unrapYamlbyKey doc item = Some entry ->
  let d := ListingYamlKeys.dir entry in
  let rel := ListingYamlKeys.relativePath entry in
  (isFunctionEnabled w d helmChartTest true = false ->
     (forall outputDir,
        HelmTest.processChart w item doc outputDir =
        (Resolved (HelmTest.mkResult item HelmTest.disabled
                     (Some "Disabled by .ci.config.yaml") rel),
         [call_isFunctionEnabled d helmChartTest])) /\
     (forall ev, In ev (trace (HelmTest.run w)) -> isToolCallOn d ev = false)) /\
  (isFunctionEnabled w d helmChartValidation true = false ->
     (forall V changed rows,
        ManifestValidation.notInChangedSet V changed item = false ->
        ManifestValidation.validateItem w doc V changed item rows =
        (Resolved (rows ++ [[item; ":heavy_exclamation_mark:"; rel]])%list,
         [call_isFunctionEnabled d helmChartValidation])) /\
     (forall ev, In ev (trace (ManifestValidation.run w)) -> isToolCallOn d ev = false)) /\
  (isFunctionEnabled w d helmChartDependencyUpdate true = false ->
     (forall rows,
        HelmDependencyUpdate.sequentialItem w doc item rows =
        (Resolved (rows ++ [[item; ":heavy_exclamation_mark:"; rel]])%list,
         [call_isFunctionEnabled d helmChartDependencyUpdate])) /\
     HelmDependencyUpdate.parallelItem w doc item =
       (Resolved [item; ":heavy_exclamation_mark:"; rel],
        [call_isFunctionEnabled d helmChartDependencyUpdate]) /\
     (forall ev, In ev (trace (HelmDependencyUpdate.run w)) -> isToolCallOn d ev = false)).
Proof.
  intros Hlook d rel. subst d rel. repeat split.
  - intros outputDir. unfold HelmTest.processChart. rewrite Hlook.
    unfold utils.isFunctionEnabled, path_parse. cbn [emit ret bind app].
    rewrite H. reflexivity.
  - apply (gated_disabled_no_call w helmChartTest); [apply HelmTest_run_gated|assumption].
  - intros V changed rows Hin. unfold ManifestValidation.validateItem.
    rewrite Hin, Hlook.
    unfold utils.isFunctionEnabled, path_parse. cbn [emit ret bind app].
    rewrite H. reflexivity.
  - apply (gated_disabled_no_call w helmChartValidation);
      [apply ManifestValidation_run_gated|assumption].
  - intros rows. unfold HelmDependencyUpdate.sequentialItem. rewrite Hlook.
    unfold utils.isFunctionEnabled, path_parse. cbn [emit ret bind app].
    rewrite H. reflexivity.
  - unfold HelmDependencyUpdate.parallelItem. rewrite Hlook.
    unfold utils.isFunctionEnabled, path_parse. cbn [emit ret bind app].
    rewrite H. reflexivity.
  - apply (gated_disabled_no_call w helmChartDependencyUpdate);
      [apply HelmDependencyUpdate_run_gated|assumption].
Qed.

Lemma disabled_chart_is_reported_disabled_and_never_invoked_witness :
  HelmTest.processChart Scenario.chartADisabled Scenario.chartA Scenario.listingAB
    "/ws/.helm-test-output" =
  (Resolved (HelmTest.mkResult Scenario.chartA HelmTest.disabled
               (Some "Disabled by .ci.config.yaml") "charts/chartA"),
   [call_isFunctionEnabled "/ws/charts/chartA" helmChartTest]) /\
  (forall ev, In ev (trace (HelmTest.run Scenario.chartADisabled)) ->
     isToolCallOn "/ws/charts/chartA" ev = false).
Proof.
  pose proof (disabled_chart_is_reported_disabled_and_never_invoked
                Scenario.chartADisabled Scenario.listingAB Scenario.chartA
                (ListingYamlKeys.mkEntry "/ws/charts/chartA" "charts/chartA") eq_refl)
    as (Htest & _ & _).
  destruct (Htest eq_refl) as (Hresult & Hcalls).
  split; [apply Hresult | exact Hcalls].
Defined.

(** ** Strings *)

Lemma append_assoc (a b c : string) : (a ++ b) ++ c = a ++ b ++ c.
Proof.
  induction a as [|ch a IH]; simpl; [reflexivity|]. rewrite IH. reflexivity.
Qed.

Lemma append_empty_r (a : string) : a ++ "" = a.
Proof.
  induction a as [|ch a IH]; simpl; [reflexivity|]. rewrite IH. reflexivity.
Qed.

Lemma includes_prefixed (p s part : string) : includes s part -> includes (p ++ s) part.
Proof.
  intros (b & a & ->). exists (p ++ b), a. rewrite append_assoc. reflexivity.
Qed.

(** Every element of an array is part of its [join]. *)
Lemma join_includes (sep : string) (xs : list string) (x : string) :
  In x xs -> includes (join sep xs) x.
Proof.
  unfold join. induction xs as [|y r IH]; intros Hin; [contradiction|].
  destruct r as [|z r].
  - destruct Hin as [->|[]]. exists "", "". cbn. rewrite append_empty_r. reflexivity.
  - change (String.concat sep (y :: z :: r))
      with (y ++ sep ++ String.concat sep (z :: r)).
    destruct Hin as [->|Hin].
    + exists "", (sep ++ String.concat sep (z :: r)). reflexivity.
    + apply includes_prefixed, includes_prefixed, IH, Hin.
Qed.

(** ** helm-test: the verdict *)

Lemma failures_none (t : list Event) : Forall noSetFailed t -> failures t = [].
Proof.
  induction 1 as [|ev t Hev _ IH]; [reflexivity|].
  destruct ev; cbn in *; try assumption. discriminate Hev.
Qed.

Ltac plain_event := unfold noSetFailed, noSummaryWrite; reflexivity.

Lemma HelmTest_results_no_setFailed (w : Collaborators) :
  Forall noSetFailed (trace (HelmTest.results w)).
Proof.
  unfold HelmTest.results, HelmTest.collectResults, HelmTest.processChart,
    noListingEntry, utils.assertNullOrEmpty, utils.isFunctionEnabled.
  walk_trace; plain_event.
Qed.

(** The [try] block of helm-test once the results are there and the summary
    is written: it resolves, and the only possible [core.setFailed] is the
    verdict. *)
Lemma HelmTest_run_verdict (w : Collaborators) (cr : nat * list HelmTest.TestResult) :
  outcome (HelmTest.results w) = Resolved cr ->
  summaryWrite w = Resolved tt ->
  outcome (HelmTest.run w) = Resolved tt /\
  failures (trace (HelmTest.run w)) =
    if Nat.ltb 0 (List.length (filter HelmTest.isFailed (snd cr)))
    then ["Helm tests failed for: " ++
          join ", " (map HelmTest.chart (filter HelmTest.isFailed (snd cr)))]
    else [].
Proof.
  intros Hres Hwrite.
  unfold HelmTest.run. rewrite outcome_try_catch, trace_try_catch.
  unfold HelmTest.body. rewrite outcome_bind, trace_bind, Hres.
  unfold HelmTest.report, summary_write_await. rewrite Hwrite.
  cbn [emit ret bind app outcome trace fst snd].
  destruct (Nat.ltb 0 _); cbn [emit ret bind app outcome trace fst snd];
    rewrite app_nil_r, failures_app,
      (failures_none _ (HelmTest_results_no_setFailed w));
    split; reflexivity.
Qed.

Lemma filter_failed_nonempty (rs : list HelmTest.TestResult) :
  Nat.ltb 0 (List.length (filter HelmTest.isFailed rs)) = true <->
  exists r, In r rs /\ HelmTest.status r = HelmTest.failed.
Proof.
  split.
  - intros H. destruct (filter HelmTest.isFailed rs) as [|r l] eqn:E; [discriminate|].
    assert (Hin : In r (filter HelmTest.isFailed rs)) by (rewrite E; now left).
    apply filter_In in Hin. destruct Hin as [Hin Hf]. exists r. split; [assumption|].
    unfold HelmTest.isFailed in Hf. destruct (HelmTest.status r); congruence.
  - intros (r & Hin & Hst).
    assert (Hf : In r (filter HelmTest.isFailed rs)).
    { apply filter_In. split; [assumption|]. unfold HelmTest.isFailed. now rewrite Hst. }
    destruct (filter HelmTest.isFailed rs); [contradiction|reflexivity].
Qed.

(** C1: in a helm-test run whose charts all yielded a result and whose
    summary was written, [core.setFailed] is called if and only if some
    result has status [failed]; results that are all [passed], [skipped] or
    [disabled] end in success; and the failure message names every failed
    chart. *)
Theorem helm_test_fails_iff_some_chart_failed
    (w : Collaborators) (cr : nat * list HelmTest.TestResult) :
  outcome (HelmTest.results w) = Resolved cr ->
  summaryWrite w = Resolved tt ->
  let results := snd cr in
  (failures (trace (HelmTest.run w)) <> [] <->
   exists r, In r results /\ HelmTest.status r = HelmTest.failed) /\
  ((forall r, In r results ->
      HelmTest.status r = HelmTest.passed \/
      HelmTest.status r = HelmTest.skipped \/
      HelmTest.status r = HelmTest.disabled) ->
   outcome (HelmTest.run w) = Resolved tt /\ failures (trace (HelmTest.run w)) = []) /\
  (forall message, In message (failures (trace (HelmTest.run w))) ->
   forall r, In r results -> HelmTest.status r = HelmTest.failed ->
   includes message (HelmTest.chart r)).
Proof.
  intros Hres Hwrite results.
  destruct (HelmTest_run_verdict w cr Hres Hwrite) as [Hout Hfail].
  fold results in Hfail. rewrite Hfail. clear Hfail.
  pose proof (filter_failed_nonempty results) as Hiff.
  destruct (Nat.ltb 0 (List.length (filter HelmTest.isFailed results))) eqn:E.
  - repeat split.
    + intros _. apply Hiff. reflexivity.
    + intros _. discriminate.
    + assumption.
    + exfalso. destruct (proj1 Hiff eq_refl) as (r & Hin & Hst).
      destruct (H r Hin) as [Hs|[Hs|Hs]]; congruence.
    + intros message [<-|[]] r Hin Hst.
      apply includes_prefixed, join_includes, in_map, filter_In.
      split; [assumption|]. unfold HelmTest.isFailed. now rewrite Hst.
  - repeat split.
    + intros H. now contradiction H.
    + intros H. apply Hiff in H. discriminate.
    + assumption.
    + intros message [].
Qed.

Lemma helm_test_fails_iff_some_chart_failed_witness :
  failures (trace (HelmTest.run Scenario.testRunWithFailure)) <> [] /\
  includes "Helm tests failed for: chartA" Scenario.chartA.
Proof.
  pose proof (helm_test_fails_iff_some_chart_failed Scenario.testRunWithFailure
                (2, [Scenario.failedA; Scenario.passedB]) eq_refl eq_refl)
    as (Hiff & _ & Hnames).
  split.
  - apply Hiff. exists Scenario.failedA. split; [now left | reflexivity].
  - apply (Hnames "Helm tests failed for: chartA" (or_introl eq_refl)
             Scenario.failedA (or_introl eq_refl) eq_refl).
Defined.

(** ** Loops that fill an array *)

Section Appending.

Context {A B : Type}.
Variable o : A -> Outcome (list B).
Variable body : A -> list B -> M (list B).
Hypothesis body_appends : forall x s,
  outcome (body x s) =
  match o x with
  | Resolved l => Resolved (s ++ l)%list
  | Rejected e => Rejected e
  end.

(** A sequential loop whose body appends what [o] yields ends with all of
    it appended in order, unless some [o x] is a rejection. *)
Lemma for_of_appending (xs : list A) :
  forall s,
    resolvedValue (outcome (for_of xs body s)) =
    if forallb (fun x => isResolved (o x)) xs
    then Some (s ++ List.concat (fulfilled (map o xs)))%list
    else None.
Proof.
  induction xs as [|x r IH]; intros s; cbn [for_of forallb map fulfilled List.concat].
  - cbn. rewrite app_nil_r. reflexivity.
  - rewrite outcome_bind, body_appends.
    destruct (o x) as [l|e]; cbn [isResolved andb fulfilled List.concat resolvedValue].
    + rewrite IH. rewrite app_assoc. reflexivity.
    + reflexivity.
Qed.

End Appending.

Lemma forallb_pushed {A B} (f : A -> Outcome B) (xs : list A) :
  forallb (fun x => isResolved (pushed (f x))) xs = forallb isResolved (map f xs).
Proof.
  induction xs as [|x r IH]; cbn; [reflexivity|]. rewrite IH.
  destruct (f x); reflexivity.
Qed.

Lemma concat_fulfilled_pushed {A B} (f : A -> Outcome B) (xs : list A) :
  List.concat (fulfilled (map (fun x => pushed (f x)) xs)) = fulfilled (map f xs).
Proof.
  induction xs as [|x r IH]; cbn; [reflexivity|].
  destruct (f x); cbn; rewrite IH; reflexivity.
Qed.

(** The values of fulfilled promises keep the order of the array they were
    mapped from. *)
Lemma fulfilled_in_order {A B C} (f : A -> Outcome B) (g : B -> C) (h : A -> C)
    (xs : list A) :
  (forall x b, In x xs -> f x = Resolved b -> g b = h x) ->
  forallb isResolved (map f xs) = true ->
  map g (fulfilled (map f xs)) = map h xs.
Proof.
  induction xs as [|x r IH]; intros Hg Hall; cbn in *; [reflexivity|].
  destruct (f x) as [b|e] eqn:E; [|discriminate]. cbn in *.
  rewrite (Hg x b (or_introl eq_refl) E). f_equal.
  apply IH; [|assumption]. intros y c Hy. apply Hg. now right.
Qed.

Lemma concat_fulfilled_in_order {A B C} (f : A -> Outcome (list B)) (g : B -> C)
    (h : A -> list C) (xs : list A) :
  (forall x l, In x xs -> f x = Resolved l -> map g l = h x) ->
  forallb (fun x => isResolved (f x)) xs = true ->
  map g (List.concat (fulfilled (map f xs))) = flat_map h xs.
Proof.
  induction xs as [|x r IH]; intros Hg Hall; cbn in *; [reflexivity|].
  destruct (f x) as [l|e] eqn:E; [|discriminate]. cbn in *.
  rewrite map_app, (Hg x l (or_introl eq_refl) E). f_equal.
  apply IH; [|assumption]. intros y c Hy. apply Hg. now right.
Qed.

Lemma flat_map_keep {A} (keep : A -> bool) (xs : list A) :
  flat_map (fun x => if keep x then [x] else []) xs = filter keep xs.
Proof.
  induction xs as [|x r IH]; cbn; [reflexivity|].
  rewrite IH. destruct (keep x); reflexivity.
Qed.

(** [Promise.all] over started callbacks: the values in array order when
    all fulfil, a rejection otherwise. *)
Lemma resolvedValue_Promise_all {B} (settle : nat -> nat) (ps : list (Outcome B)) :
  resolvedValue (outcome (Promise_all settle ps)) =
  if forallb isResolved ps then Some (fulfilled ps) else None.
Proof.
  destruct (forallb isResolved ps) eqn:E.
  - rewrite (Promise_all_fulfilled settle ps E). reflexivity.
  - destruct (Promise_all_rejected settle ps E) as (e & -> & _). reflexivity.
Qed.

(** ** Dependency update: the two loops *)

Lemma sequentialItem_pushes (w : Collaborators) (doc : Listing) (item : string)
    (rows : list Row) :
  outcome (HelmDependencyUpdate.sequentialItem w doc item rows) =
  match pushed (outcome (HelmDependencyUpdate.parallelItem w doc item)) with
  | Resolved l => Resolved (rows ++ l)%list
  | Rejected e => Rejected e
  end.
Proof.
  unfold HelmDependencyUpdate.sequentialItem, HelmDependencyUpdate.parallelItem.
  destruct (unrapYamlbyKey doc item) as [entry|]; [|reflexivity].
  unfold utils.isFunctionEnabled. cbn [emit ret bind app].
  destruct (isFunctionEnabled w _ _ _); [|reflexivity].
  unfold await. cbn [emit ret bind app].
  destruct (DependencyUpdate w _); reflexivity.
Qed.

Lemma parallelItem_row (w : Collaborators) (doc : Listing) (item : string) (row : Row) :
  outcome (HelmDependencyUpdate.parallelItem w doc item) = Resolved row ->
  rowChart row = item.
Proof.
  unfold HelmDependencyUpdate.parallelItem.
  destruct (unrapYamlbyKey doc item) as [entry|]; [|discriminate].
  unfold utils.isFunctionEnabled. cbn [emit ret bind app].
  destruct (isFunctionEnabled w _ _ _).
  - unfold await. cbn [emit ret bind app].
    destruct (DependencyUpdate w _); cbn; [|discriminate].
    intros [= <-]. reflexivity.
  - cbn. intros [= <-]. reflexivity.
Qed.

Lemma collectRows_sequential (w : Collaborators) (doc : Listing) :
  resolvedValue (outcome (HelmDependencyUpdate.collectRows w false doc)) =
  let ps := map (fun item => outcome (HelmDependencyUpdate.parallelItem w doc item))
              (Object_keys doc) in
  if forallb isResolved ps then Some (fulfilled ps) else None.
Proof.
  unfold HelmDependencyUpdate.collectRows.
  rewrite outcome_bind. cbn [emit outcome fst].
  rewrite (for_of_appending
             (fun item => pushed (outcome (HelmDependencyUpdate.parallelItem w doc item)))
             (HelmDependencyUpdate.sequentialItem w doc)
             (sequentialItem_pushes w doc)).
  rewrite forallb_pushed, concat_fulfilled_pushed. reflexivity.
Qed.

Lemma collectRows_parallel (w : Collaborators) (doc : Listing) :
  resolvedValue (outcome (HelmDependencyUpdate.collectRows w true doc)) =
  let ps := map (fun item => outcome (HelmDependencyUpdate.parallelItem w doc item))
              (Object_keys doc) in
  if forallb isResolved ps then Some (fulfilled ps) else None.
Proof.
  unfold HelmDependencyUpdate.collectRows.
  rewrite outcome_bind. cbn [emit outcome fst].
  rewrite outcome_bind, outcome_map_async.
  apply resolvedValue_Promise_all.
Qed.

Lemma resolvedValue_Some {A} (o : Outcome A) (a : A) :
  resolvedValue o = Some a <-> o = Resolved a.
Proof.
  destruct o; cbn; split; congruence.
Qed.

Lemma dependency_update_rows_in_order (w : Collaborators) (parallelInput : bool)
    (doc : Listing) (rows : list Row) :
  outcome (HelmDependencyUpdate.collectRows w parallelInput doc) = Resolved rows ->
  map rowChart rows = Object_keys doc.
Proof.
  intros H. apply resolvedValue_Some in H.
  assert (H' : (let ps := map (fun item =>
                               outcome (HelmDependencyUpdate.parallelItem w doc item))
                            (Object_keys doc) in
                if forallb isResolved ps then Some (fulfilled ps) else None) = Some rows).
  { destruct parallelInput;
      [rewrite <- collectRows_parallel | rewrite <- collectRows_sequential]; exact H. }
  cbv zeta in H'.
  destruct (forallb isResolved _) eqn:E; [|discriminate].
  injection H' as <-.
  rewrite (fulfilled_in_order _ rowChart (fun item => item)); [apply map_id| |exact E].
  intros item row _. apply parallelItem_row.
Qed.

(** ** helm-test and validation: the result list *)

Lemma processChart_chart (w : Collaborators) (item : string) (doc : Listing)
    (outputDir : string) (r : HelmTest.TestResult) :
  outcome (HelmTest.processChart w item doc outputDir) = Resolved r ->
  HelmTest.chart r = item.
Proof.
  unfold HelmTest.processChart.
  destruct (unrapYamlbyKey doc item) as [entry|]; [|discriminate].
  unfold utils.isFunctionEnabled. cbn [emit ret bind app].
  destruct (isFunctionEnabled w _ _ _); cbn [negb].
  - unfold await. cbn [emit ret bind app].
    destruct (unittest w _ _ _) as [result|e]; cbn [bind]; [|discriminate].
    destruct (andb _ _); [|destruct (Z.eqb _ _)]; cbn; intros [= <-]; reflexivity.
  - cbn. intros [= <-]. reflexivity.
Qed.

Lemma helm_test_results_in_order (w : Collaborators) (doc : Listing) (outputDir : string)
    (results : list HelmTest.TestResult) :
  outcome (HelmTest.collectResults w doc outputDir) = Resolved results ->
  map HelmTest.chart results = Object_keys doc.
Proof.
  intros H. apply resolvedValue_Some in H. revert H.
  unfold HelmTest.collectResults.
  rewrite outcome_bind, outcome_map_async, resolvedValue_Promise_all.
  destruct (forallb isResolved _) eqn:E; [|discriminate].
  intros [= <-].
  rewrite (fulfilled_in_order _ HelmTest.chart (fun item => item)); [apply map_id| |exact E].
  intros item r _. apply processChart_chart.
Qed.

Lemma validateItem_appends (w : Collaborators) (doc : Listing) (V : bool)
    (changed : option StringSet) (item : string) (rows : list Row) :
  outcome (ManifestValidation.validateItem w doc V changed item rows) =
  match outcome (ManifestValidation.validateItem w doc V changed item []) with
  | Resolved l => Resolved (rows ++ l)%list
  | Rejected e => Rejected e
  end.
Proof.
  unfold ManifestValidation.validateItem.
  destruct (ManifestValidation.notInChangedSet V changed item).
  - cbn. rewrite app_nil_r. reflexivity.
  - destruct (unrapYamlbyKey doc item) as [entry|]; [|reflexivity].
    unfold utils.isFunctionEnabled. cbn [emit ret bind app].
    destruct (isFunctionEnabled w _ _ _); [|reflexivity].
    unfold await. cbn [emit ret bind app].
    destruct (template w _ _ _); reflexivity.
Qed.

Lemma validateItem_kept (w : Collaborators) (doc : Listing) (V : bool)
    (changed : option StringSet) (item : string) (l : list Row) :
  outcome (ManifestValidation.validateItem w doc V changed item []) = Resolved l ->
  map rowChart l =
  if negb (ManifestValidation.notInChangedSet V changed item) then [item] else [].
Proof.
  unfold ManifestValidation.validateItem.
  destruct (ManifestValidation.notInChangedSet V changed item); cbn [negb].
  - cbn. intros [= <-]. reflexivity.
  - destruct (unrapYamlbyKey doc item) as [entry|]; [|discriminate].
    unfold utils.isFunctionEnabled. cbn [emit ret bind app].
    destruct (isFunctionEnabled w _ _ _).
    + unfold await. cbn [emit ret bind app].
      destruct (template w _ _ _); cbn; [|discriminate]. intros [= <-]. reflexivity.
    + cbn. intros [= <-]. reflexivity.
Qed.

Lemma validation_rows_in_order (w : Collaborators) (doc : Listing) (V : bool)
    (changed : option StringSet) (rows : list Row) :
  outcome (ManifestValidation.collectRows w doc V changed) = Resolved rows ->
  map rowChart rows =
  filter (fun item => negb (ManifestValidation.notInChangedSet V changed item))
    (Object_keys doc).
Proof.
  intros H. apply resolvedValue_Some in H. revert H.
  unfold ManifestValidation.collectRows.
  rewrite (for_of_appending
             (fun item => outcome (ManifestValidation.validateItem w doc V changed item []))
             (ManifestValidation.validateItem w doc V changed)
             (validateItem_appends w doc V changed)).
  destruct (forallb _ _) eqn:E; [|discriminate].
  intros [= <-]. cbn [app].
  rewrite <- flat_map_keep.
  apply concat_fulfilled_in_order; [|exact E].
  intros item l _. apply validateItem_kept.
Qed.

(** A chart identifier taken from the listing has an entry in it. *)
Lemma unrapYamlbyKey_of_key (doc : Listing) (item : string) :
  In item (Object_keys doc) ->
  exists entry, unrapYamlbyKey doc item = Some entry /\ In (item, entry) doc.
Proof.
  induction doc as [|[k e] r IH]; cbn; [contradiction|].
  intros Hin. destruct (String.eqb_spec k item) as [->|Hne].
  - exists e. split; [reflexivity | now left].
  - destruct Hin as [Heq|Hin]; [contradiction|].
    destruct (IH Hin) as (entry & Hl & Hi). exists entry. split; [assumption | now right].
Qed.

Lemma forallb_map_resolved {A B} (f : A -> Outcome B) (xs : list A) :
  (forall x, In x xs -> isResolved (f x) = true) ->
  forallb isResolved (map f xs) = true.
Proof.
  intros H. apply forallb_forall. intros p Hp. apply in_map_iff in Hp.
  destruct Hp as (x & <- & Hx). apply H, Hx.
Qed.

Lemma parallelItem_resolves (w : Collaborators) (doc : Listing) (item : string) :
  (forall entry, In (item, entry) doc ->
     isResolved (DependencyUpdate w (ListingYamlKeys.dir entry)) = true) ->
  In item (Object_keys doc) ->
  isResolved (outcome (HelmDependencyUpdate.parallelItem w doc item)) = true.
Proof.
  intros Htool Hin. destruct (unrapYamlbyKey_of_key doc item Hin) as (entry & Hl & Hi).
  unfold HelmDependencyUpdate.parallelItem. rewrite Hl.
  unfold utils.isFunctionEnabled, path_parse. cbn [emit ret bind app].
  destruct (isFunctionEnabled w _ _ _); [|reflexivity].
  unfold await. cbn [emit ret bind app].
  specialize (Htool entry Hi). destruct (DependencyUpdate w _); [reflexivity|discriminate].
Qed.

Lemma processChart_resolves (w : Collaborators) (doc : Listing) (outputDir item : string) :
  (forall entry out options, In (item, entry) doc ->
     isResolved (unittest w (ListingYamlKeys.dir entry) out options) = true) ->
  In item (Object_keys doc) ->
  isResolved (outcome (HelmTest.processChart w item doc outputDir)) = true.
Proof.
  intros Htool Hin. destruct (unrapYamlbyKey_of_key doc item Hin) as (entry & Hl & Hi).
  unfold HelmTest.processChart. rewrite Hl.
  unfold utils.isFunctionEnabled, path_parse. cbn [emit ret bind app].
  destruct (isFunctionEnabled w _ _ _); cbn [negb]; [|reflexivity].
  unfold await. cbn [emit ret bind app].
  specialize (Htool entry (path_join outputDir item)
                (HelmTest.unittestOptions w (ListingYamlKeys.dir entry)) Hi).
  destruct (unittest w _ _ _); [|discriminate].
  cbn [bind]. destruct (andb _ _); [|destruct (Z.eqb _ _)]; reflexivity.
Qed.

(** C2: whichever way the charts are run, the result list has one entry
    per chart of the working set, in the order of the working set: the rows
    of dependency update in sequential and in parallel mode, the results of
    helm-test (always parallel), and the rows of validation over the listing
    filtered by the changed-set.  The list is there whenever the helm helper
    returns for every chart. *)
Theorem result_list_follows_working_set (w : Collaborators) (doc : Listing) :
  (forall parallelInput rows,
     outcome (HelmDependencyUpdate.collectRows w parallelInput doc) = Resolved rows ->
     map rowChart rows = Object_keys doc) /\
  (forall outputDir results,
     outcome (HelmTest.collectResults w doc outputDir) = Resolved results ->
     map HelmTest.chart results = Object_keys doc) /\
  (forall V changed rows,
     outcome (ManifestValidation.collectRows w doc V changed) = Resolved rows ->
     map rowChart rows =
     filter (fun item => negb (ManifestValidation.notInChangedSet V changed item))
       (Object_keys doc)) /\
  ((forall item entry, In (item, entry) doc ->
      isResolved (DependencyUpdate w (ListingYamlKeys.dir entry)) = true) ->
   forall parallelInput,
     exists rows, outcome (HelmDependencyUpdate.collectRows w parallelInput doc) = Resolved rows) /\
  ((forall item entry out options, In (item, entry) doc ->
      isResolved (unittest w (ListingYamlKeys.dir entry) out options) = true) ->
   forall outputDir,
     exists results, outcome (HelmTest.collectResults w doc outputDir) = Resolved results).
Proof.
  split; [|split; [|split; [|split]]].
  - intros parallelInput rows. apply dependency_update_rows_in_order.
  - intros outputDir results. apply helm_test_results_in_order.
  - intros V changed rows. apply validation_rows_in_order.
  - intros Htool parallelInput.
    assert (Hall : forallb isResolved
                     (map (fun item => outcome (HelmDependencyUpdate.parallelItem w doc item))
                        (Object_keys doc)) = true).
    { apply forallb_map_resolved. intros item Hin.
      apply parallelItem_resolves; [|assumption]. intros entry. apply Htool. }
    eexists. apply resolvedValue_Some.
    destruct parallelInput;
      [rewrite collectRows_parallel | rewrite collectRows_sequential];
      cbv zeta; rewrite Hall; reflexivity.
  - intros Htool outputDir.
    eexists. apply resolvedValue_Some.
    unfold HelmTest.collectResults.
    rewrite outcome_bind, outcome_map_async, resolvedValue_Promise_all.
    rewrite forallb_map_resolved; [reflexivity|].
    intros item Hin. apply processChart_resolves; [|assumption].
    intros entry out options. apply Htool.
Qed.

Lemma result_list_follows_working_set_witness :
  map rowChart [["chartA"; "✅"; "charts/chartA"]; ["chartB"; "✅"; "charts/chartB"]]
  = Object_keys Scenario.listingAB /\
  map HelmTest.chart [Scenario.failedA; Scenario.passedB] = Object_keys Scenario.listingAB.
Proof.
  pose proof (result_list_follows_working_set Scenario.testRunWithFailure Scenario.listingAB)
    as (Hdep & Htest & _).
  split.
  - apply (Hdep true). reflexivity.
  - apply (Htest "/ws/.helm-test-output"). reflexivity.
Defined.

(** ** Dependency update: the table a run adds to the summary *)

Lemma tables_none (t : list Event) : Forall noSummaryTable t -> tables t = [].
Proof.
  induction 1 as [|ev t Hev _ IH]; [reflexivity|].
  destruct ev; cbn in *; try assumption. discriminate Hev.
Qed.

Lemma dependency_update_collectRows_no_table (w : Collaborators) (p : bool) (doc : Listing) :
  Forall noSummaryTable (trace (HelmDependencyUpdate.collectRows w p doc)).
Proof.
  unfold HelmDependencyUpdate.collectRows, HelmDependencyUpdate.parallelItem,
    HelmDependencyUpdate.sequentialItem, noListingEntry, utils.isFunctionEnabled.
  walk_trace; reflexivity.
Qed.

(** The tables of a dependency-update run: the collected rows, once, when
    the run gets that far. *)
Lemma dependency_update_run_tables (w : Collaborators) :
  tables (trace (HelmDependencyUpdate.run w)) =
  if String.eqb (String_ (process_env w constants.GITHUB_WORKSPACE)) "" then []
  else
    match getListingFileContent w (String_ (process_env w constants.GITHUB_WORKSPACE)) with
    | Rejected _ => []
    | Resolved content =>
        match yaml_parse w content with
        | Rejected _ => []
        | Resolved doc =>
            match resolvedValue
                    (outcome (HelmDependencyUpdate.collectRows w
                                (HelmDependencyUpdate.parallelInput w) doc)) with
            | Some rows => [rows]
            | None => []
            end
        end
    end.
Proof.
  unfold HelmDependencyUpdate.run. rewrite trace_try_catch, tables_app.
  assert (Hhandler : forall o : Outcome unit,
             tables match o with
                    | Resolved _ => []
                    | Rejected e => trace (failOnError e)
                    end = []).
  { intros [a|[m|v]]; reflexivity. }
  rewrite Hhandler, app_nil_r. clear Hhandler.
  unfold HelmDependencyUpdate.body, utils.assertNullOrEmpty, path_parse.
  destruct (String.eqb _ ""); [reflexivity|].
  rewrite trace_bind. cbn [ret trace outcome fst snd app].
  rewrite trace_bind. unfold await at 1 2. cbn [trace outcome fst snd app].
  destruct (getListingFileContent w _) as [content|e]; [|reflexivity].
  rewrite trace_bind. unfold await at 1 2. cbn [trace outcome fst snd app].
  destruct (yaml_parse w content) as [doc|e]; [|reflexivity].
  repeat (rewrite trace_bind; cbn [emit trace outcome fst snd app tables]).
  rewrite tables_app, (tables_none _ (dependency_update_collectRows_no_table w _ doc)).
  cbn [app].
  destruct (outcome (HelmDependencyUpdate.collectRows w _ doc)) as [rows|e];
    [|reflexivity].
  cbn [resolvedValue].
  repeat (rewrite trace_bind; cbn [emit trace outcome fst snd app tables]).
  unfold summary_write_await.
  destruct (summaryWrite w); reflexivity.
Qed.

Lemma collectRows_any_mode (w : Collaborators) (p : bool) (doc : Listing) :
  resolvedValue (outcome (HelmDependencyUpdate.collectRows w p doc)) =
  let ps := map (fun item => outcome (HelmDependencyUpdate.parallelItem w doc item))
              (Object_keys doc) in
  if forallb isResolved ps then Some (fulfilled ps) else None.
Proof.
  destruct p; [apply collectRows_parallel | apply collectRows_sequential].
Qed.

Lemma parallelItem_withParallel (w : Collaborators) (value : string) (doc : Listing) :
  HelmDependencyUpdate.parallelItem (withParallel w value) doc =
  HelmDependencyUpdate.parallelItem w doc.
Proof. reflexivity. Qed.

(** C5: for one listing and one outcome of the tool per chart, the
    sequential loop and the parallel [Promise.all] of dependency update end
    with the same rows in the same order (or both end without rows, when an
    invocation throws), whatever the order in which the promises settle; and
    the table a run adds to the summary does not depend on the [parallel]
    input. *)
Theorem dependency_update_sequential_equals_parallel (w : Collaborators) (doc : Listing) :
  resolvedValue (outcome (HelmDependencyUpdate.collectRows w false doc)) =
  resolvedValue (outcome (HelmDependencyUpdate.collectRows w true doc)) /\
  HelmDependencyUpdate.parallelInput (withParallel w "false") = false /\
  HelmDependencyUpdate.parallelInput (withParallel w "true") = true /\
  (forall value value',
     tables (trace (HelmDependencyUpdate.run (withParallel w value))) =
     tables (trace (HelmDependencyUpdate.run (withParallel w value')))).
Proof.
  split; [|split; [|split]]; try reflexivity.
  - rewrite !collectRows_any_mode. reflexivity.
  - intros v v'.
    rewrite !dependency_update_run_tables.
    cbn [withParallel process_env getListingFileContent yaml_parse].
    destruct (String.eqb _ ""); [reflexivity|].
    destruct (getListingFileContent w _) as [content|e]; [|reflexivity].
    destruct (yaml_parse w content) as [doc'|e]; [|reflexivity].
    rewrite !collectRows_any_mode, !parallelItem_withParallel. reflexivity.
Qed.

(** ** Validation and dependency update: what the exit code does *)

Lemma unrapYamlbyKey_some_key (doc : Listing) (item : string)
    (entry : ListingYamlKeys.ListingEntry) :
  unrapYamlbyKey doc item = Some entry -> In item (Object_keys doc).
Proof.
  induction doc as [|[k e] r IH]; cbn; [discriminate|].
  destruct (String.eqb_spec k item) as [->|Hne]; [now left|].
  intros H. right. apply IH, H.
Qed.

Lemma forallb_one_rejected {A} (f : A -> bool) (xs : list A) (x : A) :
  In x xs -> f x = false -> forallb f xs = false.
Proof.
  intros Hin Hx. destruct (forallb f xs) eqn:E; [|reflexivity].
  rewrite forallb_forall in E. rewrite (E x Hin) in Hx. discriminate.
Qed.

(** C3 (as amended): in validation and dependency update, a chart on which
    the tool is invoked gets the check-mark row as soon as the helper call
    returns, whatever exit code, standard output and standard error it
    returns.  The only rows these two actions ever produce for a chart are
    the check-mark row and the disabled row, each of three cells: no chart is
    reported as [failed] and no reason is recorded.  When the helper call
    throws instead, the processing of that chart ends with that throw and
    yields no row, and the row list of the run is not produced, in sequential
    and in parallel mode. *)
Theorem returned_tool_outcome_is_reported_as_success
    (w : Collaborators) (doc : Listing) (item : string)
    (entry : ListingYamlKeys.ListingEntry) :
  unrapYamlbyKey doc item = Some entry ->
  let d := ListingYamlKeys.dir entry in
  let rel := ListingYamlKeys.relativePath entry in
  (isFunctionEnabled w d helmChartDependencyUpdate true = true ->
     (forall result, DependencyUpdate w d = Resolved result ->
        outcome (HelmDependencyUpdate.parallelItem w doc item) = Resolved [item; "✅"; rel] /\
        forall rows,
          outcome (HelmDependencyUpdate.sequentialItem w doc item rows) =
          Resolved (rows ++ [[item; "✅"; rel]])%list) /\
     (forall e, DependencyUpdate w d = Rejected e ->
        outcome (HelmDependencyUpdate.parallelItem w doc item) = Rejected e /\
        (forall rows,
           outcome (HelmDependencyUpdate.sequentialItem w doc item rows) = Rejected e) /\
        (forall parallelInput,
           resolvedValue (outcome (HelmDependencyUpdate.collectRows w parallelInput doc))
             = None))) /\
  (isFunctionEnabled w d helmChartValidation true = true ->
   forall V changed rows,
     ManifestValidation.notInChangedSet V changed item = false ->
     (forall result,
        template w d (getHelmValueFiles w d) (ManifestValidation.helmOptions w d)
          = Resolved result ->
        outcome (ManifestValidation.validateItem w doc V changed item rows) =
        Resolved (rows ++ [[item; "✅"; rel]])%list) /\
     (forall e,
        template w d (getHelmValueFiles w d) (ManifestValidation.helmOptions w d)
          = Rejected e ->
        outcome (ManifestValidation.validateItem w doc V changed item rows) = Rejected e /\
        resolvedValue (outcome (ManifestValidation.collectRows w doc V changed)) = None)) /\
  (forall row,
     outcome (HelmDependencyUpdate.parallelItem w doc item) = Resolved row ->
     row = [item; "✅"; rel] \/ row = [item; ":heavy_exclamation_mark:"; rel]) /\
  (forall rows rows',
     outcome (HelmDependencyUpdate.sequentialItem w doc item rows) = Resolved rows' ->
     rows' = (rows ++ [[item; "✅"; rel]])%list \/
     rows' = (rows ++ [[item; ":heavy_exclamation_mark:"; rel]])%list) /\
  (forall V changed rows rows',
     outcome (ManifestValidation.validateItem w doc V changed item rows) = Resolved rows' ->
     rows' = rows \/
     rows' = (rows ++ [[item; "✅"; rel]])%list \/
     rows' = (rows ++ [[item; ":heavy_exclamation_mark:"; rel]])%list).
Proof.
  intros Hlook d rel. subst d rel.
  pose proof (unrapYamlbyKey_some_key doc item entry Hlook) as Hkey.
  split; [|split; [|split; [|split]]].
  - intros Hen.
    assert (Hitem : forall x,
              DependencyUpdate w (ListingYamlKeys.dir entry) = x ->
              outcome (HelmDependencyUpdate.parallelItem w doc item) =
              match x with
              | Resolved _ => Resolved [item; "✅"; ListingYamlKeys.relativePath entry]
              | Rejected e => Rejected e
              end /\
              forall rows,
                outcome (HelmDependencyUpdate.sequentialItem w doc item rows) =
                match x with
                | Resolved _ =>
                    Resolved (rows ++ [[item; "✅"; ListingYamlKeys.relativePath entry]])%list
                | Rejected e => Rejected e
                end).
    { intros x Hx.
      unfold HelmDependencyUpdate.parallelItem, HelmDependencyUpdate.sequentialItem.
      rewrite Hlook. unfold utils.isFunctionEnabled, path_parse, await.
      cbn [emit ret bind app]. rewrite Hen, Hx. destruct x; split; reflexivity. }
    split.
    + intros result Hx. exact (Hitem _ Hx).
    + intros e Hx. destruct (Hitem _ Hx) as [Hp Hs]. split; [exact Hp|]. split; [exact Hs|].
      intros parallelInput. rewrite collectRows_any_mode. cbv zeta.
      rewrite (forallb_one_rejected isResolved _ (Rejected e)); [reflexivity| |reflexivity].
      apply in_map_iff. exists item. split; [exact Hp | exact Hkey].
  - intros Hen V changed rows Hin.
    assert (Hitem : forall x rows0,
              template w (ListingYamlKeys.dir entry)
                (getHelmValueFiles w (ListingYamlKeys.dir entry))
                (ManifestValidation.helmOptions w (ListingYamlKeys.dir entry)) = x ->
              outcome (ManifestValidation.validateItem w doc V changed item rows0) =
              match x with
              | Resolved _ =>
                  Resolved (rows0 ++ [[item; "✅"; ListingYamlKeys.relativePath entry]])%list
              | Rejected e => Rejected e
              end).
    { intros x rows0 Hx. unfold ManifestValidation.validateItem.
      rewrite Hin, Hlook. unfold utils.isFunctionEnabled, path_parse, await.
      cbn [emit ret bind app]. rewrite Hen, Hx. destruct x; reflexivity. }
    split.
    + intros result Hx. exact (Hitem _ rows Hx).
    + intros e Hx. split; [exact (Hitem _ rows Hx)|].
      unfold ManifestValidation.collectRows.
      rewrite (for_of_appending
                 (fun x => outcome (ManifestValidation.validateItem w doc V changed x []))
                 (ManifestValidation.validateItem w doc V changed)
                 (validateItem_appends w doc V changed)).
      rewrite (forallb_one_rejected _ _ item Hkey); [reflexivity|].
      rewrite (Hitem _ [] Hx). reflexivity.
  - intros row. unfold HelmDependencyUpdate.parallelItem. rewrite Hlook.
    unfold utils.isFunctionEnabled, path_parse, await. cbn [emit ret bind app].
    destruct (isFunctionEnabled w _ _ _).
    + destruct (DependencyUpdate w _); cbn; [|discriminate]. intros [= <-]. now left.
    + cbn. intros [= <-]. now right.
  - intros rows rows'. unfold HelmDependencyUpdate.sequentialItem. rewrite Hlook.
    unfold utils.isFunctionEnabled, path_parse, await. cbn [emit ret bind app].
    destruct (isFunctionEnabled w _ _ _).
    + destruct (DependencyUpdate w _); cbn; [|discriminate]. intros [= <-]. now left.
    + cbn. intros [= <-]. now right.
  - intros V changed rows rows'. unfold ManifestValidation.validateItem.
    destruct (ManifestValidation.notInChangedSet V changed item).
    + cbn. intros [= <-]. now left.
    + rewrite Hlook. unfold utils.isFunctionEnabled, path_parse, await.
      cbn [emit ret bind app].
      destruct (isFunctionEnabled w _ _ _).
      * destruct (template w _ _ _); cbn; [|discriminate]. intros [= <-]. right. now left.
      * cbn. intros [= <-]. right. now right.
Qed.

Lemma returned_tool_outcome_is_reported_as_success_witness :
  outcome (HelmDependencyUpdate.parallelItem Scenario.alwaysBoom Scenario.listingA
             Scenario.chartA)
  = Resolved ["chartA"; "✅"; "charts/chartA"].
Proof.
  apply (proj1 (proj1 (returned_tool_outcome_is_reported_as_success
                         Scenario.alwaysBoom Scenario.listingA Scenario.chartA
                         (ListingYamlKeys.mkEntry "/ws/charts/chartA" "charts/chartA")
                         eq_refl)
                  eq_refl) Scenario.boom eq_refl).
Defined.

(** C3, as first stated, fails.  When the helper returns exit code 1 with
    "boom" on standard error, dependency update (in both modes) and
    validation report the chart with the check mark and do not fail the run;
    when the helper throws [Error("boom")] instead, no table is added at all,
    and the sequential runs never reach chartB.  Either way no chart is
    reported as [failed] with a reason. *)
Lemma nonzero_exit_code_is_not_reported_as_failed :
  (DependencyUpdate Scenario.alwaysBoom "/ws/charts/chartA" = Resolved (mkExec 1 "" "boom") /\
   tables (trace (HelmDependencyUpdate.run (withParallel Scenario.alwaysBoom "false")))
     = [[["chartA"; "✅"; "charts/chartA"]]] /\
   tables (trace (HelmDependencyUpdate.run (withParallel Scenario.alwaysBoom "true")))
     = [[["chartA"; "✅"; "charts/chartA"]]] /\
   tables (trace (ManifestValidation.run Scenario.alwaysBoom))
     = [[["chartA"; "✅"; "charts/chartA"]]] /\
   failures (trace (HelmDependencyUpdate.run (withParallel Scenario.alwaysBoom "false"))) = [] /\
   failures (trace (HelmDependencyUpdate.run (withParallel Scenario.alwaysBoom "true"))) = [] /\
   failures (trace (ManifestValidation.run Scenario.alwaysBoom)) = []) /\
  (DependencyUpdate Scenario.throwsOnA "/ws/charts/chartA" = Rejected (ErrorObj "boom") /\
   tables (trace (HelmDependencyUpdate.run (withParallel Scenario.throwsOnA "false"))) = [] /\
   tables (trace (HelmDependencyUpdate.run (withParallel Scenario.throwsOnA "true"))) = [] /\
   tables (trace (ManifestValidation.run Scenario.throwsOnA)) = [] /\
   existsb (isToolCallOn "/ws/charts/chartB")
     (trace (HelmDependencyUpdate.run (withParallel Scenario.throwsOnA "false"))) = false /\
   existsb (isToolCallOn "/ws/charts/chartB")
     (trace (ManifestValidation.run Scenario.throwsOnA)) = false).
Proof. repeat split; reflexivity. Qed.

(** ** Validation of changed charts only *)

Lemma validation_body_changed_only (w : Collaborators) (content : string) (doc : Listing)
    (changed : StringSet) :
  String_ (process_env w constants.GITHUB_WORKSPACE) <> "" ->
  getListingFileContent w (String_ (process_env w constants.GITHUB_WORKSPACE))
    = Resolved content ->
  yaml_parse w content = Resolved doc ->
  ManifestValidation.VALIDATE_CHANGED_ONLY w = true ->
  detectedChanges w content = Resolved changed ->
  ManifestValidation.body w =
  if Nat.eqb (Set_size changed) 0 then
    (Resolved tt,
     ([core_info "No Helm charts modified in this PR. Skipping validation.";
       summary_addHeading "Helm Chart Manifest Validation Results";
       summary_addRaw "✅ No Helm charts were modified in this PR. Validation skipped."]
      ++ trace (ManifestValidation.summary_write_detached w))%list)
  else
    bind (emit (core_info ("Found " ++ showNat (Set_size changed) ++
                           " changed Helm chart(s): " ++ join ", " (Array_from changed))))
         (fun _ => ManifestValidation.validateAll w doc true (Some changed)).
Proof.
  intros Hws Hcontent Hdoc Hflag Hdetect.
  unfold ManifestValidation.body, utils.assertNullOrEmpty.
  apply String.eqb_neq in Hws. rewrite Hws.
  unfold path_parse in *. cbn [ret bind app].
  rewrite Hcontent. unfold await at 1. cbn [bind app].
  rewrite Hdoc. unfold await at 1. cbn [bind app].
  rewrite Hflag.
  unfold detectedChanges, path_parse in Hdetect. rewrite Hdetect.
  unfold await at 1. cbn [bind app].
  destruct (Nat.eqb (Set_size changed) 0).
  - unfold ManifestValidation.summary_write_detached.
    destruct (summaryWrite w); reflexivity.
  - destruct (bind _ _). reflexivity.
Qed.

(** C7: with change-filtering enabled and an empty changed-set, the
    validation run is the informational log line and the short summary and
    nothing else: it resolves without [core.setFailed], consults no feature
    gate, invokes the tool on no chart and adds no table. *)
Theorem empty_changed_set_short_circuits
    (w : Collaborators) (content : string) (doc : Listing) (changed : StringSet) :
  String_ (process_env w constants.GITHUB_WORKSPACE) <> "" ->
  getListingFileContent w (String_ (process_env w constants.GITHUB_WORKSPACE))
    = Resolved content ->
  yaml_parse w content = Resolved doc ->
  ManifestValidation.VALIDATE_CHANGED_ONLY w = true ->
  detectedChanges w content = Resolved changed ->
  Set_size changed = 0 ->
  ManifestValidation.run w =
    (Resolved tt,
     ([core_info "No Helm charts modified in this PR. Skipping validation.";
       summary_addHeading "Helm Chart Manifest Validation Results";
       summary_addRaw "✅ No Helm charts were modified in this PR. Validation skipped."]
      ++ (if isResolved (summaryWrite w) then [summary_write] else []))%list) /\
  failures (trace (ManifestValidation.run w)) = [] /\
  gateCalls (trace (ManifestValidation.run w)) = [] /\
  tables (trace (ManifestValidation.run w)) = [] /\
  (forall ev, In ev (trace (ManifestValidation.run w)) -> isToolCall ev = false).
Proof.
  intros Hws Hcontent Hdoc Hflag Hdetect Hempty.
  assert (Hrun : ManifestValidation.run w =
    (Resolved tt,
     ([core_info "No Helm charts modified in this PR. Skipping validation.";
       summary_addHeading "Helm Chart Manifest Validation Results";
       summary_addRaw "✅ No Helm charts were modified in this PR. Validation skipped."]
      ++ (if isResolved (summaryWrite w) then [summary_write] else []))%list)).
  { unfold ManifestValidation.run.
    rewrite (validation_body_changed_only w content doc changed Hws Hcontent Hdoc Hflag Hdetect).
    rewrite Hempty. cbn [Nat.eqb try_catch].
    unfold ManifestValidation.summary_write_detached.
    destruct (summaryWrite w); reflexivity. }
  rewrite Hrun. split; [reflexivity|].
  destruct (summaryWrite w); cbn; repeat split; try reflexivity;
    intros ev Hin; repeat (destruct Hin as [<-|Hin]; [reflexivity|]); contradiction.
Qed.

Lemma empty_changed_set_short_circuits_witness :
  failures (trace (ManifestValidation.run Scenario.nothingChanged)) = [] /\
  gateCalls (trace (ManifestValidation.run Scenario.nothingChanged)) = [].
Proof.
  pose proof (empty_changed_set_short_circuits Scenario.nothingChanged
                "listing-content" Scenario.listingAB []) as H.
  destruct H as (_ & Hf & Hg & _).
  - discriminate.
  - reflexivity.
  - reflexivity.
  - reflexivity.
  - reflexivity.
  - reflexivity.
  - split; assumption.
Defined.






Lemma failOnError_quiet (o : Outcome unit) :
  gateCalls match o with
            | Resolved _ => []
            | Rejected e => trace (failOnError e)
            end = [] /\
  tables match o with
         | Resolved _ => []
         | Rejected e => trace (failOnError e)
         end = [].
Proof. destruct o as [a|[m|v]]; split; reflexivity. Qed.



(** ** A throw that is not an [Error] *)

Section QuietWhenRejected.

Variable P : Event -> Prop.

Lemma quiet_bind {A B} (m : M A) (k : A -> M B) :
  Forall P (trace m) ->
  (forall a, outcome m = Resolved a -> quietWhenRejected P (k a)) ->
  quietWhenRejected P (bind m k).
Proof.
  unfold quietWhenRejected. intros Hm Hk. rewrite outcome_bind, trace_bind.
  destruct (outcome m) as [a|e]; intros Hrej.
  - apply Forall_app. split; [assumption | apply Hk; [reflexivity | assumption]].
  - rewrite app_nil_r. assumption.
Qed.

Lemma quiet_of_Forall {A} (m : M A) : Forall P (trace m) -> quietWhenRejected P m.
Proof. intros H _. exact H. Qed.

Lemma quiet_of_resolved {A} (m : M A) :
  isResolved (outcome m) = true -> quietWhenRejected P m.
Proof. unfold quietWhenRejected. congruence. Qed.

End QuietWhenRejected.

Lemma write_and_after_quiet (P : Event -> Prop) (w : Collaborators) (after : M unit) :
  isResolved (outcome after) = true ->
  quietWhenRejected P (bind (summary_write_await w) (fun _ => after)).
Proof.
  intros Hafter. unfold summary_write_await.
  destruct (summaryWrite w) as [u|e].
  - apply quiet_of_resolved. rewrite outcome_bind. cbn [emit outcome fst]. assumption.
  - apply quiet_of_Forall. constructor.
Qed.

(** Walks a [try] block down to its awaited [core.summary.write()]. *)
Ltac walk_quiet :=
  repeat first
    [ apply write_and_after_quiet
    | apply quiet_bind; [ walk_trace | intros ? ? ]
    | match goal with
      | |- quietWhenRejected _ (if ?b then _ else _) => destruct b eqn:?
      | |- quietWhenRejected _ (match ?o with Some _ => _ | None => _ end) => destruct o eqn:?
      end ].

Lemma dependency_update_body_quiet (P : Event -> Prop) (w : Collaborators) :
  (forall ev, isSummaryWrite ev = false -> isSetFailed ev = false -> P ev) ->
  quietWhenRejected P (HelmDependencyUpdate.body w).
Proof.
  intros HP.
  unfold HelmDependencyUpdate.body, HelmDependencyUpdate.collectRows,
    HelmDependencyUpdate.parallelItem, HelmDependencyUpdate.sequentialItem,
    noListingEntry, utils.assertNullOrEmpty, utils.isFunctionEnabled.
  walk_quiet; try (apply HP; reflexivity); try reflexivity.
Qed.

Lemma validation_body_quiet (P : Event -> Prop) (w : Collaborators) :
  (forall ev, isSummaryWrite ev = false -> isSetFailed ev = false -> P ev) ->
  quietWhenRejected P (ManifestValidation.body w).
Proof.
  intros HP.
  unfold ManifestValidation.body, ManifestValidation.validateAll,
    ManifestValidation.collectRows, ManifestValidation.validateItem,
    noListingEntry, utils.assertNullOrEmpty, utils.isFunctionEnabled.
  walk_quiet; try (apply HP; reflexivity); try reflexivity.
  apply quiet_of_resolved. unfold ManifestValidation.summary_write_detached.
  destruct (summaryWrite w); reflexivity.
Qed.

Lemma helm_test_body_quiet (P : Event -> Prop) (w : Collaborators) :
  (forall ev, isSummaryWrite ev = false -> isSetFailed ev = false -> P ev) ->
  quietWhenRejected P (HelmTest.body w).
Proof.
  intros HP.
  unfold HelmTest.body, HelmTest.results, HelmTest.report, HelmTest.collectResults,
    HelmTest.processChart, noListingEntry, utils.assertNullOrEmpty,
    utils.isFunctionEnabled.
  walk_quiet; try (apply HP; reflexivity).
  destruct (Nat.ltb 0 _); reflexivity.
Qed.

Lemma rejected_not_resolved {A} (o : Outcome A) (e : Thrown) :
  o = Rejected e -> isResolved o = false.
Proof. intros ->. reflexivity. Qed.

(** What the catch clause does with a throw that is not an [Error]. *)
Lemma non_error_is_swallowed (body : M unit) (e : Thrown) :
  (forall P : Event -> Prop,
     (forall ev, isSummaryWrite ev = false -> isSetFailed ev = false -> P ev) ->
     quietWhenRejected P body) ->
  instanceofError e = false ->
  outcome body = Rejected e ->
  swallowed body (try_catch body failOnError).
Proof.
  intros Hquiet Hne Hrej. destruct e as [m|v]; [discriminate|].
  unfold swallowed. rewrite outcome_try_catch, trace_try_catch, Hrej.
  cbn [failOnError ret outcome trace fst snd]. rewrite app_nil_r.
  pose proof (rejected_not_resolved _ _ Hrej) as Hnr.
  split; [reflexivity|]. split; [reflexivity|]. split.
  - apply failures_none. apply (Hquiet noSetFailed); [|assumption].
    intros ev _ H. exact H.
  - assert (H : Forall noSummaryWrite (trace body)).
    { apply (Hquiet noSummaryWrite); [|assumption]. intros ev H _. exact H. }
    rewrite Forall_forall in H. exact H.
Qed.

(** C10: when the [try] block of a run ends by throwing a value that is
    not an [Error] instance, the catch clause does nothing with it: the run
    resolves, [core.setFailed] is never called, and no summary has been
    written. *)
Theorem non_error_throw_ends_as_silent_success (w : Collaborators) (e : Thrown) :
  instanceofError e = false ->
  (outcome (ManifestValidation.body w) = Rejected e ->
     swallowed (ManifestValidation.body w) (ManifestValidation.run w)) /\
  (outcome (HelmTest.body w) = Rejected e ->
     swallowed (HelmTest.body w) (HelmTest.run w)) /\
  (outcome (HelmDependencyUpdate.body w) = Rejected e ->
     swallowed (HelmDependencyUpdate.body w) (HelmDependencyUpdate.run w)).
Proof.
  intros Hne. split; [|split]; intros Hrej.
  - apply (non_error_is_swallowed _ e); try assumption.
    intros P HP. apply validation_body_quiet, HP.
  - apply (non_error_is_swallowed _ e); try assumption.
    intros P HP. apply helm_test_body_quiet, HP.
  - apply (non_error_is_swallowed _ e); try assumption.
    intros P HP. apply dependency_update_body_quiet, HP.
Qed.

Lemma non_error_throw_ends_as_silent_success_witness :
  swallowed (ManifestValidation.body Scenario.throwsText)
            (ManifestValidation.run Scenario.throwsText) /\
  swallowed (HelmTest.body Scenario.throwsText) (HelmTest.run Scenario.throwsText) /\
  swallowed (HelmDependencyUpdate.body Scenario.throwsText)
            (HelmDependencyUpdate.run Scenario.throwsText).
Proof.
  pose proof (non_error_throw_ends_as_silent_success Scenario.throwsText
                (NonError "helm: killed") eq_refl) as (Hv & Ht & Hd).
  split; [apply Hv; reflexivity | split; [apply Ht; reflexivity | apply Hd; reflexivity]].
Defined.

(** ** The workspace root *)

(** An empty [GITHUB_WORKSPACE] ends each run at its first statement: the
    one call made is [core.setFailed] with the message naming the variable. *)
Lemma empty_workspace_aborts (w : Collaborators) :
  process_env w constants.GITHUB_WORKSPACE = Some "" ->
  ManifestValidation.run w = (Resolved tt, [core_setFailed "Missing env `GITHUB_WORKSPACE`!"]) /\
  HelmTest.run w = (Resolved tt, [core_setFailed "Missing env `GITHUB_WORKSPACE`!"]) /\
  HelmDependencyUpdate.run w = (Resolved tt, [core_setFailed "Missing env `GITHUB_WORKSPACE`!"]).
Proof.
  intros H.
  unfold ManifestValidation.run, ManifestValidation.body, HelmTest.run, HelmTest.body,
    HelmTest.results, HelmDependencyUpdate.run, HelmDependencyUpdate.body.
  rewrite H. repeat split; reflexivity.
Qed.

Example empty_workspace_scenario :
  HelmTest.run Scenario.emptyWorkspace =
  (Resolved tt, [core_setFailed "Missing env `GITHUB_WORKSPACE`!"]).
Proof. apply (empty_workspace_aborts Scenario.emptyWorkspace). reflexivity. Qed.

(** C9 at the failing input: with [GITHUB_WORKSPACE] not set, the text
    handed to the emptiness check is "undefined"; the check passes, and each
    run goes on under the workspace root "undefined": charts are processed,
    the tool is invoked, the summary is written and [core.setFailed] is never
    called. *)
Theorem missing_workspace_is_not_detected :
  process_env Scenario.missingWorkspace constants.GITHUB_WORKSPACE = None /\
  utils.assertNullOrEmpty
    (String_ (process_env Scenario.missingWorkspace constants.GITHUB_WORKSPACE))
    "Missing env `GITHUB_WORKSPACE`!" = ret tt /\
  (failures (trace (ManifestValidation.run Scenario.missingWorkspace)) = [] /\
   existsb isToolCall (trace (ManifestValidation.run Scenario.missingWorkspace)) = true /\
   existsb isSummaryWrite (trace (ManifestValidation.run Scenario.missingWorkspace)) = true) /\
  (failures (trace (HelmTest.run Scenario.missingWorkspace)) = [] /\
   In (call_unittest "/ws/charts/chartA" "undefined/.helm-test-output/chartA" [])
      (trace (HelmTest.run Scenario.missingWorkspace)) /\
   existsb isSummaryWrite (trace (HelmTest.run Scenario.missingWorkspace)) = true) /\
  (failures (trace (HelmDependencyUpdate.run Scenario.missingWorkspace)) = [] /\
   existsb isToolCall (trace (HelmDependencyUpdate.run Scenario.missingWorkspace)) = true /\
   existsb isSummaryWrite (trace (HelmDependencyUpdate.run Scenario.missingWorkspace)) = true).
Proof.
  repeat split; try reflexivity.
  cbn. tauto.
Qed.

(** * Further properties of the three actions *)

(** ** How a run can end *)

Lemma validation_body_no_setFailed (w : Collaborators) :
  Forall noSetFailed (trace (ManifestValidation.body w)).
Proof.
  unfold ManifestValidation.body, ManifestValidation.validateAll,
    ManifestValidation.collectRows, ManifestValidation.validateItem,
    ManifestValidation.summary_write_detached, noListingEntry,
    utils.assertNullOrEmpty, utils.isFunctionEnabled, summary_write_await.
  walk_trace; plain_event.
Qed.

Lemma dependency_update_body_no_setFailed (w : Collaborators) :
  Forall noSetFailed (trace (HelmDependencyUpdate.body w)).
Proof.
  unfold HelmDependencyUpdate.body, HelmDependencyUpdate.collectRows,
    HelmDependencyUpdate.parallelItem, HelmDependencyUpdate.sequentialItem,
    noListingEntry, utils.assertNullOrEmpty, utils.isFunctionEnabled,
    summary_write_await.
  walk_trace; plain_event.
Qed.

(** The [core.setFailed] calls of a run whose [try] block makes none. *)
Lemma failures_of_quiet_body (body : M unit) :
  Forall noSetFailed (trace body) ->
  failures (trace (try_catch body failOnError)) =
  match outcome body with
  | Rejected (ErrorObj message) => [message]
  | _ => []
  end.
Proof.
  intros H. rewrite trace_try_catch, failures_app, (failures_none _ H).
  destruct (outcome body) as [a|[m|v]]; reflexivity.
Qed.

(** The verdict is the only [core.setFailed] of the helm-test [try] block,
    and it only comes when the block runs to its end. *)
Lemma helm_test_body_failures (w : Collaborators) :
  match outcome (HelmTest.body w) with
  | Resolved _ => List.length (failures (trace (HelmTest.body w))) <= 1
  | Rejected _ => failures (trace (HelmTest.body w)) = []
  end.
Proof.
  destruct (outcome (HelmTest.body w)) as [a|e] eqn:E.
  - unfold HelmTest.body in *. rewrite outcome_bind in E. rewrite trace_bind, failures_app.
    rewrite (failures_none _ (HelmTest_results_no_setFailed w)).
    destruct (outcome (HelmTest.results w)) as [cr|e]; [|discriminate].
    cbn [app]. unfold HelmTest.report, summary_write_await in *.
    destruct (summaryWrite w) as [u|e]; [|discriminate].
    cbn [emit ret bind app outcome trace fst snd].
    destruct (Nat.ltb 0 _); cbn; auto.
  - apply failures_none.
    apply (helm_test_body_quiet noSetFailed w).
    + intros ev _ H. exact H.
    + rewrite E. reflexivity.
Qed.

(** X1: the promise returned by each of the three [run] functions always
    resolves, and a run calls [core.setFailed] at most once. *)
Theorem run_resolves_and_fails_at_most_once (w : Collaborators) :
  (outcome (ManifestValidation.run w) = Resolved tt /\
   List.length (failures (trace (ManifestValidation.run w))) <= 1) /\
  (outcome (HelmTest.run w) = Resolved tt /\
   List.length (failures (trace (HelmTest.run w))) <= 1) /\
  (outcome (HelmDependencyUpdate.run w) = Resolved tt /\
   List.length (failures (trace (HelmDependencyUpdate.run w))) <= 1).
Proof.
  assert (Hres : forall body, outcome (try_catch body failOnError) = Resolved tt).
  { intros body. rewrite outcome_try_catch.
    destruct (outcome body) as [[]|[m|v]]; reflexivity. }
  split; [|split]; (split; [apply Hres|]).
  - unfold ManifestValidation.run.
    rewrite (failures_of_quiet_body _ (validation_body_no_setFailed w)).
    destruct (outcome _) as [a|[m|v]]; cbn; auto.
  - unfold HelmTest.run. rewrite trace_try_catch, failures_app.
    pose proof (helm_test_body_failures w) as H.
    destruct (outcome (HelmTest.body w)) as [a|[m|v]].
    + rewrite app_nil_r. exact H.
    + rewrite H. cbn. auto.
    + rewrite H. cbn. auto.
  - unfold HelmDependencyUpdate.run.
    rewrite (failures_of_quiet_body _ (dependency_update_body_no_setFailed w)).
    destruct (outcome _) as [a|[m|v]]; cbn; auto.
Qed.

(** X2: validation and dependency update fail the job only through a
    throw: [core.setFailed] is called exactly when their [try] block ends by
    throwing an [Error], with that error's message; no exit code, disabled
    chart or skipped chart ever makes them call it. *)
Theorem validation_and_update_fail_only_by_throw (w : Collaborators) :
  failures (trace (ManifestValidation.run w)) =
    match outcome (ManifestValidation.body w) with
    | Rejected (ErrorObj message) => [message]
    | _ => []
    end /\
  failures (trace (HelmDependencyUpdate.run w)) =
    match outcome (HelmDependencyUpdate.body w) with
    | Rejected (ErrorObj message) => [message]
    | _ => []
    end.
Proof.
  split.
  - apply failures_of_quiet_body, validation_body_no_setFailed.
  - apply failures_of_quiet_body, dependency_update_body_no_setFailed.
Qed.

(** What the catch clause does with a thrown [Error]. *)
Lemma error_is_reported (body : M unit) (message : string) :
  (forall P : Event -> Prop,
     (forall ev, isSummaryWrite ev = false -> isSetFailed ev = false -> P ev) ->
     quietWhenRejected P body) ->
  outcome body = Rejected (ErrorObj message) ->
  trace (try_catch body failOnError) = (trace body ++ [core_setFailed message])%list /\
  failures (trace (try_catch body failOnError)) = [message] /\
  (forall ev, In ev (trace (try_catch body failOnError)) -> isSummaryWrite ev = false).
Proof.
  intros Hquiet Hrej.
  pose proof (rejected_not_resolved _ _ Hrej) as Hnr.
  rewrite trace_try_catch, Hrej. cbn [failOnError emit trace snd].
  split; [reflexivity|]. split.
  - rewrite failures_app, failures_none; [reflexivity|].
    apply (Hquiet noSetFailed); [|assumption]. intros ev _ H. exact H.
  - assert (H : Forall noSummaryWrite (trace body)).
    { apply (Hquiet noSummaryWrite); [|assumption]. intros ev H _. exact H. }
    rewrite Forall_forall in H. intros ev Hin. apply in_app_or in Hin.
    destruct Hin as [Hin|[<-|[]]]; [apply H, Hin | reflexivity].
Qed.

(** X3: when the [try] block of a run ends by throwing an [Error], the
    run's last call, and its only [core.setFailed], is
    [core.setFailed(error.message)], and no summary has been written. *)
Theorem thrown_error_is_the_failure_message (w : Collaborators) (message : string) :
  (outcome (ManifestValidation.body w) = Rejected (ErrorObj message) ->
     trace (ManifestValidation.run w) =
       (trace (ManifestValidation.body w) ++ [core_setFailed message])%list /\
     failures (trace (ManifestValidation.run w)) = [message] /\
     (forall ev, In ev (trace (ManifestValidation.run w)) -> isSummaryWrite ev = false)) /\
  (outcome (HelmTest.body w) = Rejected (ErrorObj message) ->
     trace (HelmTest.run w) = (trace (HelmTest.body w) ++ [core_setFailed message])%list /\
     failures (trace (HelmTest.run w)) = [message] /\
     (forall ev, In ev (trace (HelmTest.run w)) -> isSummaryWrite ev = false)) /\
  (outcome (HelmDependencyUpdate.body w) = Rejected (ErrorObj message) ->
     trace (HelmDependencyUpdate.run w) =
       (trace (HelmDependencyUpdate.body w) ++ [core_setFailed message])%list /\
     failures (trace (HelmDependencyUpdate.run w)) = [message] /\
     (forall ev, In ev (trace (HelmDependencyUpdate.run w)) -> isSummaryWrite ev = false)).
Proof.
  split; [|split]; intros Hrej.
  - apply error_is_reported; [|assumption]. intros P HP. apply validation_body_quiet, HP.
  - apply error_is_reported; [|assumption]. intros P HP. apply helm_test_body_quiet, HP.
  - apply error_is_reported; [|assumption]. intros P HP. apply dependency_update_body_quiet, HP.
Qed.

Lemma thrown_error_is_the_failure_message_witness :
  failures (trace (ManifestValidation.run Scenario.throwsOnA)) = ["boom"] /\
  failures (trace (HelmTest.run Scenario.throwsOnA)) = ["boom"] /\
  failures (trace (HelmDependencyUpdate.run Scenario.throwsOnA)) = ["boom"].
Proof.
  pose proof (thrown_error_is_the_failure_message Scenario.throwsOnA "boom")
    as (Hv & Ht & Hd).
  split; [apply (Hv eq_refl) | split; [apply (Ht eq_refl) | apply (Hd eq_refl)]].
Defined.

(** ** Before the first chart *)

(** X4: when the listing cannot be loaded (reading the file or parsing it
    throws), each run ends right there: nothing is logged, no group is
    opened, no chart is looked at, and the throw goes to the catch clause. *)
Theorem unloadable_listing_ends_the_run (w : Collaborators) (e : Thrown) :
  String_ (process_env w constants.GITHUB_WORKSPACE) <> "" ->
  getListingFileContent w (String_ (process_env w constants.GITHUB_WORKSPACE)) = Rejected e \/
  (exists content,
     getListingFileContent w (String_ (process_env w constants.GITHUB_WORKSPACE))
       = Resolved content /\
     yaml_parse w content = Rejected e) ->
  ManifestValidation.run w = failOnError e /\
  HelmTest.run w = failOnError e /\
  HelmDependencyUpdate.run w = failOnError e.
Proof.
  intros Hws Hload. apply String.eqb_neq in Hws.
  unfold ManifestValidation.run, ManifestValidation.body, HelmTest.run, HelmTest.body,
    HelmTest.results, HelmDependencyUpdate.run, HelmDependencyUpdate.body,
    utils.assertNullOrEmpty, path_parse, await.
  rewrite Hws. cbn [ret bind app].
  destruct Hload as [Hread|(content & Hread & Hparse)]; rewrite Hread; cbn [bind app].
  - destruct e; repeat split; reflexivity.
  - rewrite Hparse. destruct e; repeat split; reflexivity.
Qed.

Lemma unloadable_listing_ends_the_run_witness :
  HelmTest.run Scenario.unreadableListing = (Resolved tt, [core_setFailed "ENOENT"]).
Proof.
  apply (unloadable_listing_ends_the_run Scenario.unreadableListing (ErrorObj "ENOENT")).
  - discriminate.
  - left. reflexivity.
Defined.

(** X5: when change detection throws, the validation run ends before the
    group is opened: no chart is looked at, and the throw goes to the catch
    clause. *)
Theorem failed_change_detection_ends_the_run
    (w : Collaborators) (content : string) (doc : Listing) (e : Thrown) :
  String_ (process_env w constants.GITHUB_WORKSPACE) <> "" ->
  getListingFileContent w (String_ (process_env w constants.GITHUB_WORKSPACE))
    = Resolved content ->
  yaml_parse w content = Resolved doc ->
  ManifestValidation.VALIDATE_CHANGED_ONLY w = true ->
  detectedChanges w content = Rejected e ->
  ManifestValidation.run w = failOnError e.
Proof.
  intros Hws Hcontent Hdoc Hflag Hdetect. apply String.eqb_neq in Hws.
  unfold ManifestValidation.run, ManifestValidation.body, utils.assertNullOrEmpty.
  rewrite Hws. unfold path_parse in *. cbn [ret bind app].
  rewrite Hcontent. unfold await at 1. cbn [bind app].
  rewrite Hdoc. unfold await at 1. cbn [bind app].
  rewrite Hflag. unfold detectedChanges, path_parse in Hdetect. rewrite Hdetect.
  destruct e; reflexivity.
Qed.

Lemma failed_change_detection_ends_the_run_witness :
  ManifestValidation.run Scenario.detectionFails =
  (Resolved tt, [core_setFailed "git diff failed"]).
Proof.
  apply (failed_change_detection_ends_the_run Scenario.detectionFails
           "listing-content" Scenario.listingAB (ErrorObj "git diff failed")).
  - discriminate.
  - reflexivity.
  - reflexivity.
  - reflexivity.
  - reflexivity.
Defined.

Lemma toolCalls_app (a b : list Event) :
  toolCalls (a ++ b) = (toolCalls a ++ toolCalls b)%list.
Proof.
  induction a as [|ev a IH]; simpl; [reflexivity|].
  destruct ev; simpl; rewrite IH; reflexivity.
Qed.

(** X6: when the listing file parses to the empty mapping ([{}], a
    document with no chart), each run succeeds with an empty table: the
    summary is written with no data row, no feature gate is consulted, the
    tool is not invoked, and [core.setFailed] is not called (validation:
    with change-filtering off).  A listing file with no content at all is
    another case: it parses to [null], not to a mapping, and is not a
    [Listing]. *)
Theorem empty_mapping_gives_empty_table (w : Collaborators) (content : string) :
  String_ (process_env w constants.GITHUB_WORKSPACE) <> "" ->
  getListingFileContent w (String_ (process_env w constants.GITHUB_WORKSPACE))
    = Resolved content ->
  yaml_parse w content = Resolved [] ->
  summaryWrite w = Resolved tt ->
  (tables (trace (HelmTest.run w)) = [[]] /\
   gateCalls (trace (HelmTest.run w)) = [] /\
   toolCalls (trace (HelmTest.run w)) = [] /\
   failures (trace (HelmTest.run w)) = [] /\
   existsb isSummaryWrite (trace (HelmTest.run w)) = true) /\
  (tables (trace (HelmDependencyUpdate.run w)) = [[]] /\
   gateCalls (trace (HelmDependencyUpdate.run w)) = [] /\
   toolCalls (trace (HelmDependencyUpdate.run w)) = [] /\
   failures (trace (HelmDependencyUpdate.run w)) = [] /\
   existsb isSummaryWrite (trace (HelmDependencyUpdate.run w)) = true) /\
  (ManifestValidation.VALIDATE_CHANGED_ONLY w = false ->
   tables (trace (ManifestValidation.run w)) = [[]] /\
   gateCalls (trace (ManifestValidation.run w)) = [] /\
   toolCalls (trace (ManifestValidation.run w)) = [] /\
   failures (trace (ManifestValidation.run w)) = [] /\
   existsb isSummaryWrite (trace (ManifestValidation.run w)) = true).
Proof.
  intros Hws Hcontent Hdoc Hwrite. apply String.eqb_neq in Hws.
  split; [|split].
  - unfold HelmTest.run, HelmTest.body, HelmTest.results, HelmTest.collectResults,
      HelmTest.report, utils.assertNullOrEmpty, path_parse, await, summary_write_await.
    rewrite Hws. cbn [ret bind app]. rewrite Hcontent. cbn [bind app].
    rewrite Hdoc, Hwrite. cbn. repeat split; reflexivity.
  - unfold HelmDependencyUpdate.run, HelmDependencyUpdate.body,
      HelmDependencyUpdate.collectRows, utils.assertNullOrEmpty, path_parse, await,
      summary_write_await.
    rewrite Hws. cbn [ret bind app]. rewrite Hcontent. cbn [bind app].
    rewrite Hdoc, Hwrite.
    destruct (HelmDependencyUpdate.parallelInput w); cbn; repeat split; reflexivity.
  - intros Hflag.
    unfold ManifestValidation.run, ManifestValidation.body, ManifestValidation.validateAll,
      ManifestValidation.collectRows, utils.assertNullOrEmpty, path_parse, await,
      summary_write_await.
    rewrite Hws. cbn [ret bind app]. rewrite Hcontent. cbn [bind app].
    rewrite Hdoc, Hflag, Hwrite. cbn. repeat split; reflexivity.
Qed.

Lemma empty_mapping_gives_empty_table_witness :
  tables (trace (HelmTest.run Scenario.noCharts)) = [[]] /\
  failures (trace (HelmTest.run Scenario.noCharts)) = [].
Proof.
  pose proof (empty_mapping_gives_empty_table Scenario.noCharts "listing-content") as H.
  destruct H as ((Ht & _ & _ & Hf & _) & _).
  - discriminate.
  - reflexivity.
  - reflexivity.
  - reflexivity.
  - split; assumption.
Defined.

(** ** helm-test: the report *)

From Stdlib Require Import Lia.

(** X7: the four counts of the helm-test summary line add up to the number
    of results: every result is counted under exactly one status. *)
Theorem summary_counts_add_up (results : list HelmTest.TestResult) :
  List.length (filter HelmTest.isPassed results) +
  List.length (filter HelmTest.isFailed results) +
  List.length (filter HelmTest.isSkipped results) +
  List.length (filter HelmTest.isDisabled results) = List.length results.
Proof.
  induction results as [|r rs IH]; [reflexivity|].
  unfold HelmTest.isPassed, HelmTest.isFailed, HelmTest.isSkipped, HelmTest.isDisabled in *.
  cbn [filter]. destruct (HelmTest.status r); cbn [List.length]; lia.
Qed.

(** X8: the glyphs of the helm-test table tell the four statuses apart,
    and the legend written under each action's table explains every glyph
    that can appear in that table. *)
Theorem glyphs_are_distinct_and_explained :
  (forall s s', HelmTest.statusIcon s = HelmTest.statusIcon s' -> s = s') /\
  (forall s, includes HelmTest.legend (HelmTest.statusIcon s)) /\
  (includes HelmDependencyUpdate.legend HelmDependencyUpdate.updated /\
   includes HelmDependencyUpdate.legend HelmDependencyUpdate.disabledMark) /\
  (includes ManifestValidation.legend ManifestValidation.validated /\
   includes ManifestValidation.legend ManifestValidation.disabledMark).
Proof.
  split; [|split; [|split; split]].
  - intros [] []; cbn; intros H; try reflexivity; discriminate H.
  - intros [].
    + exists "", (" = Tests passed" ++ nl ++ "❌ = Tests failed" ++ nl ++
                  "⏭️ = Skipped (no tests directory)" ++ nl ++
                  ":heavy_exclamation_mark: = Disabled by " ++ ciConfigYaml).
      reflexivity.
    + exists ("✅ = Tests passed" ++ nl),
             (" = Tests failed" ++ nl ++ "⏭️ = Skipped (no tests directory)" ++ nl ++
              ":heavy_exclamation_mark: = Disabled by " ++ ciConfigYaml).
      reflexivity.
    + exists ("✅ = Tests passed" ++ nl ++ "❌ = Tests failed" ++ nl),
             (" = Skipped (no tests directory)" ++ nl ++
              ":heavy_exclamation_mark: = Disabled by " ++ ciConfigYaml).
      reflexivity.
    + exists ("✅ = Tests passed" ++ nl ++ "❌ = Tests failed" ++ nl ++
              "⏭️ = Skipped (no tests directory)" ++ nl),
             (" = Disabled by " ++ ciConfigYaml).
      reflexivity.
  - exists "", (" = Helm Chart Dependencies Updated " ++ nl ++
                " :heavy_exclamation_mark: = Update Disabled by " ++ ciConfigYaml).
    reflexivity.
  - exists ("✅ = Helm Chart Dependencies Updated " ++ nl ++ " "),
           (" = Update Disabled by " ++ ciConfigYaml).
    reflexivity.
  - exists "", (" = Manifest Validated " ++ nl ++
                " :heavy_exclamation_mark: = Validation Disabled by " ++ ciConfigYaml).
    reflexivity.
  - exists ("✅ = Manifest Validated " ++ nl ++ " "),
           (" = Validation Disabled by " ++ ciConfigYaml).
    reflexivity.
Qed.

Lemma helm_test_results_no_table (w : Collaborators) :
  Forall noSummaryTable (trace (HelmTest.results w)).
Proof.
  unfold HelmTest.results, HelmTest.collectResults, HelmTest.processChart,
    noListingEntry, utils.assertNullOrEmpty, utils.isFunctionEnabled.
  walk_trace; reflexivity.
Qed.

Lemma results_count (w : Collaborators) (cr : nat * list HelmTest.TestResult) :
  outcome (HelmTest.results w) = Resolved cr ->
  fst cr = List.length (snd cr).
Proof.
  unfold HelmTest.results, utils.assertNullOrEmpty, path_parse, await.
  destruct (String.eqb _ ""); [discriminate|]. cbn [ret bind app].
  destruct (getListingFileContent w _) as [content|e]; [|discriminate]. cbn [bind app].
  destruct (yaml_parse w content) as [doc|e]; [|discriminate]. cbn [emit bind app].
  destruct (HelmTest.collectResults w doc _) as [[rs|e] t] eqn:E; cbn; [|discriminate].
  intros [= <-]. cbn [fst snd].
  assert (Ho : outcome (HelmTest.collectResults w doc
                          (path_join (String_ (process_env w constants.GITHUB_WORKSPACE))
                             ".helm-test-output")) = Resolved rs)
    by (rewrite E; reflexivity).
  apply helm_test_results_in_order in Ho.
  rewrite <- Ho, length_map. reflexivity.
Qed.

(** X9: helm-test never reports a part of the charts.  The summary gets a
    table exactly when every chart yielded a result, and then its rows are
    the results in order, one row per result with the glyph of its status;
    the chart count the summary states is the number of these rows. *)
Theorem helm_test_table_is_all_or_nothing (w : Collaborators) :
  tables (trace (HelmTest.run w)) =
    match outcome (HelmTest.results w) with
    | Resolved cr => [map resultRow (snd cr)]
    | Rejected _ => []
    end /\
  (forall cr, outcome (HelmTest.results w) = Resolved cr ->
     fst cr = List.length (map resultRow (snd cr))).
Proof.
  split.
  - unfold HelmTest.run. rewrite trace_try_catch, tables_app.
    rewrite (proj2 (failOnError_quiet _)), app_nil_r.
    unfold HelmTest.body. rewrite trace_bind, tables_app.
    rewrite (tables_none _ (helm_test_results_no_table w)). cbn [app].
    destruct (outcome (HelmTest.results w)) as [cr|e]; [|reflexivity].
    unfold HelmTest.report, summary_write_await.
    repeat (rewrite trace_bind; cbn [emit trace outcome fst snd app tables]).
    destruct (summaryWrite w); cbn [emit ret throw trace outcome fst snd app tables];
      [|reflexivity].
    repeat (rewrite trace_bind; cbn [emit trace outcome fst snd app tables]).
    destruct (Nat.ltb 0 _); reflexivity.
  - intros cr H. rewrite length_map. apply (results_count w cr H).
Qed.

(** X10: when some chart failed, helm-test calls [core.setFailed] exactly
    once, and its message is "Helm tests failed for: " followed by the
    identifiers of the failed charts, and of no other chart, in result order
    and separated by ", ". *)
Theorem helm_test_failure_message
    (w : Collaborators) (cr : nat * list HelmTest.TestResult) :
  outcome (HelmTest.results w) = Resolved cr ->
  summaryWrite w = Resolved tt ->
  (exists r, In r (snd cr) /\ HelmTest.status r = HelmTest.failed) ->
  failures (trace (HelmTest.run w)) =
  ["Helm tests failed for: " ++
   join ", " (map HelmTest.chart (filter HelmTest.isFailed (snd cr)))].
Proof.
  intros Hres Hwrite Hfailed.
  destruct (HelmTest_run_verdict w cr Hres Hwrite) as [_ Hfail].
  apply filter_failed_nonempty in Hfailed. rewrite Hfailed in Hfail. exact Hfail.
Qed.

Lemma helm_test_failure_message_witness :
  failures (trace (HelmTest.run Scenario.testRunWithFailure)) =
  ["Helm tests failed for: chartA"].
Proof.
  apply (helm_test_failure_message Scenario.testRunWithFailure
           (2, [Scenario.failedA; Scenario.passedB]) eq_refl eq_refl).
  exists Scenario.failedA. split; [now left | reflexivity].
Defined.

(** ** Which charts are looked at *)

Lemma calls_of_flat_map (f : string -> list Event) (g : string -> string)
    (enabled : string -> bool) (xs : list string) :
  (forall x, In x xs ->
     gateCalls (f x) = [g x] /\ toolCalls (f x) = if enabled x then [g x] else []) ->
  gateCalls (flat_map f xs) = map g xs /\
  toolCalls (flat_map f xs) = map g (filter enabled xs).
Proof.
  induction xs as [|x r IH]; intros H; cbn [flat_map map filter]; [split; reflexivity|].
  destruct (H x (or_introl eq_refl)) as [Hg Ht].
  destruct IH as [IHg IHt]; [intros y Hy; apply H; now right|].
  rewrite gateCalls_app, toolCalls_app, Hg, Ht, IHg, IHt.
  split; [reflexivity|]. destruct (enabled x); reflexivity.
Qed.

Lemma parallelItem_calls (w : Collaborators) (doc : Listing) (item : string) :
  In item (Object_keys doc) ->
  gateCalls (trace (HelmDependencyUpdate.parallelItem w doc item)) = [dirOf doc item] /\
  toolCalls (trace (HelmDependencyUpdate.parallelItem w doc item)) =
    if isFunctionEnabled w (dirOf doc item) helmChartDependencyUpdate true
    then [dirOf doc item] else [].
Proof.
  intros Hin. destruct (unrapYamlbyKey_of_key doc item Hin) as (entry & Hl & _).
  unfold HelmDependencyUpdate.parallelItem, dirOf. rewrite Hl.
  unfold utils.isFunctionEnabled, path_parse, await. cbn [emit ret bind app].
  destruct (isFunctionEnabled w _ _ _); [|split; reflexivity].
  destruct (DependencyUpdate w _); split; reflexivity.
Qed.

Lemma processChart_calls (w : Collaborators) (doc : Listing) (outputDir item : string) :
  In item (Object_keys doc) ->
  gateCalls (trace (HelmTest.processChart w item doc outputDir)) = [dirOf doc item] /\
  toolCalls (trace (HelmTest.processChart w item doc outputDir)) =
    if isFunctionEnabled w (dirOf doc item) helmChartTest true
    then [dirOf doc item] else [].
Proof.
  intros Hin. destruct (unrapYamlbyKey_of_key doc item Hin) as (entry & Hl & _).
  unfold HelmTest.processChart, dirOf. rewrite Hl.
  unfold utils.isFunctionEnabled, path_parse, await. cbn [emit ret bind app].
  destruct (isFunctionEnabled w _ _ _); cbn [negb]; [|split; reflexivity].
  destruct (unittest w _ _ _) as [result|e]; cbn [bind app]; [|split; reflexivity].
  destruct (andb _ _); [|destruct (Z.eqb _ _)]; split; reflexivity.
Qed.

(** X11: in parallel mode every chart is started, whatever happens to the
    others: parallel dependency update and helm-test consult the feature gate
    once for every chart of the listing, in listing order, and invoke the
    tool once for every enabled chart, in listing order, even when
    invocations throw. *)
Theorem parallel_mode_starts_every_chart (w : Collaborators) (doc : Listing) :
  (gateCalls (trace (HelmDependencyUpdate.collectRows w true doc)) =
     map (dirOf doc) (Object_keys doc) /\
   toolCalls (trace (HelmDependencyUpdate.collectRows w true doc)) =
     map (dirOf doc)
       (filter (fun item =>
                  isFunctionEnabled w (dirOf doc item) helmChartDependencyUpdate true)
          (Object_keys doc))) /\
  (forall outputDir,
     gateCalls (trace (HelmTest.collectResults w doc outputDir)) =
       map (dirOf doc) (Object_keys doc) /\
     toolCalls (trace (HelmTest.collectResults w doc outputDir)) =
       map (dirOf doc)
         (filter (fun item => isFunctionEnabled w (dirOf doc item) helmChartTest true)
            (Object_keys doc))).
Proof.
  assert (Hjoin : forall (B : Type) (ps : list (Outcome B)),
             trace (Promise_all (settleTime w) ps) = []).
  { intros B ps. unfold Promise_all.
    destruct (firstRejection _ _ _ _) as [[t e]|]; reflexivity. }
  split.
  - unfold HelmDependencyUpdate.collectRows.
    rewrite trace_bind. cbn [emit trace outcome fst snd app gateCalls toolCalls].
    rewrite trace_bind, outcome_map_async, Hjoin, app_nil_r, trace_map_async.
    apply calls_of_flat_map. intros item Hin. apply parallelItem_calls, Hin.
  - intros outputDir. unfold HelmTest.collectResults.
    rewrite trace_bind, outcome_map_async, Hjoin, app_nil_r, trace_map_async.
    apply (calls_of_flat_map _ (dirOf doc)
             (fun item => isFunctionEnabled w (dirOf doc item) helmChartTest true)).
    intros item Hin. apply processChart_calls, Hin.
Qed.

Section StopsAtFirstThrow.

Context {A B : Type}.
Variable o : A -> Outcome (list B).
Variable calls : A -> list Event.
Variable body : A -> list B -> M (list B).
Hypothesis body_appends : forall x s,
  outcome (body x s) =
  match o x with
  | Resolved l => Resolved (s ++ l)%list
  | Rejected e => Rejected e
  end.
Hypothesis body_calls : forall x s, trace (body x s) = calls x.

(** A sequential loop makes the calls of the items up to and including the
    first one that throws, and none after it. *)
Lemma for_of_stops_at_first_throw (pre : list A) (item : A) (post : list A) (e : Thrown) :
  (forall x, In x pre -> isResolved (o x) = true) ->
  o item = Rejected e ->
  forall s,
    outcome (for_of (pre ++ item :: post) body s) = Rejected e /\
    trace (for_of (pre ++ item :: post) body s) = (flat_map calls pre ++ calls item)%list.
Proof.
  intros Hpre Hitem. induction pre as [|x r IH]; intros s; cbn [app for_of flat_map].
  - rewrite outcome_bind, trace_bind, body_appends, body_calls, Hitem, app_nil_r.
    split; reflexivity.
  - rewrite outcome_bind, trace_bind, body_appends, body_calls.
    specialize (Hpre x (or_introl eq_refl)) as Hx.
    destruct (o x) as [l|e']; [|discriminate].
    destruct (IH (fun y Hy => Hpre y (or_intror Hy)) (s ++ l)%list) as [Ho Ht].
    rewrite Ho, Ht, app_assoc. split; reflexivity.
Qed.

End StopsAtFirstThrow.

Lemma sequentialItem_calls (w : Collaborators) (doc : Listing) (item : string)
    (rows : list Row) :
  trace (HelmDependencyUpdate.sequentialItem w doc item rows) =
  trace (HelmDependencyUpdate.parallelItem w doc item).
Proof.
  unfold HelmDependencyUpdate.sequentialItem, HelmDependencyUpdate.parallelItem.
  destruct (unrapYamlbyKey doc item) as [entry|]; [|reflexivity].
  unfold utils.isFunctionEnabled, await. cbn [emit ret bind app].
  destruct (isFunctionEnabled w _ _ _); [|reflexivity].
  destruct (DependencyUpdate w _); reflexivity.
Qed.

Lemma pushed_resolved {B} (p : Outcome B) : isResolved (pushed p) = isResolved p.
Proof. destruct p; reflexivity. Qed.

(** X12: sequential dependency update stops at the first chart whose
    processing throws: the run makes the calls of the charts up to and
    including that one and none for the charts after it, and the throw it
    ends with is that chart's.  Parallel mode, over the same listing, makes
    the calls of every chart. *)
Theorem sequential_mode_stops_at_first_throw
    (w : Collaborators) (doc : Listing) (pre : list string) (item : string)
    (post : list string) (e : Thrown) :
  Object_keys doc = (pre ++ item :: post)%list ->
  (forall x, In x pre ->
     isResolved (outcome (HelmDependencyUpdate.parallelItem w doc x)) = true) ->
  outcome (HelmDependencyUpdate.parallelItem w doc item) = Rejected e ->
  outcome (HelmDependencyUpdate.collectRows w false doc) = Rejected e /\
  trace (HelmDependencyUpdate.collectRows w false doc) =
    (core_info "Running helm dependency update in sequential mode"
     :: flat_map (fun x => trace (HelmDependencyUpdate.parallelItem w doc x)) pre
     ++ trace (HelmDependencyUpdate.parallelItem w doc item))%list /\
  trace (HelmDependencyUpdate.collectRows w true doc) =
    (core_info "Running helm dependency update in parallel mode"
     :: flat_map (fun x => trace (HelmDependencyUpdate.parallelItem w doc x))
          (pre ++ item :: post))%list.
Proof.
  intros Hkeys Hpre Hitem.
  destruct (for_of_stops_at_first_throw
              (fun x => pushed (outcome (HelmDependencyUpdate.parallelItem w doc x)))
              (fun x => trace (HelmDependencyUpdate.parallelItem w doc x))
              (HelmDependencyUpdate.sequentialItem w doc)
              (sequentialItem_pushes w doc) (sequentialItem_calls w doc)
              pre item post e) with (s := @nil Row) as [Ho Ht].
  { intros x Hx. rewrite pushed_resolved. apply Hpre, Hx. }
  { rewrite Hitem. reflexivity. }
  unfold HelmDependencyUpdate.collectRows. rewrite Hkeys.
  split; [|split].
  - rewrite outcome_bind. cbn [emit outcome fst]. exact Ho.
  - rewrite trace_bind. cbn [emit trace outcome fst snd app]. rewrite Ht. reflexivity.
  - rewrite trace_bind. cbn [emit trace outcome fst snd app].
    rewrite trace_bind, outcome_map_async, trace_map_async.
    unfold Promise_all. destruct (firstRejection _ _ _ _) as [[t e']|];
      cbn [throw ret trace snd]; rewrite app_nil_r; reflexivity.
Qed.

Lemma sequential_mode_stops_at_first_throw_witness :
  toolCalls (trace (HelmDependencyUpdate.collectRows Scenario.throwsOnA false
                      Scenario.listingAB)) = ["/ws/charts/chartA"] /\
  toolCalls (trace (HelmDependencyUpdate.collectRows Scenario.throwsOnA true
                      Scenario.listingAB)) = ["/ws/charts/chartA"; "/ws/charts/chartB"].
Proof.
  destruct (sequential_mode_stops_at_first_throw Scenario.throwsOnA Scenario.listingAB
              [] Scenario.chartA [Scenario.chartB] (ErrorObj "boom") eq_refl)
    as (_ & Hs & Hp).
  - intros x [].
  - reflexivity.
  - rewrite Hs, Hp. split; reflexivity.
Defined.

(** X13: the throw a parallel batch ends with is the throw of one of its
    charts: when [Promise.all] rejects in parallel dependency update or in
    helm-test, some chart of the listing was processed with exactly that
    rejection. *)
Theorem parallel_rejection_comes_from_a_chart (w : Collaborators) (doc : Listing)
    (e : Thrown) :
  (outcome (HelmDependencyUpdate.collectRows w true doc) = Rejected e ->
   exists item, In item (Object_keys doc) /\
     outcome (HelmDependencyUpdate.parallelItem w doc item) = Rejected e) /\
  (forall outputDir,
     outcome (HelmTest.collectResults w doc outputDir) = Rejected e ->
     exists item, In item (Object_keys doc) /\
       outcome (HelmTest.processChart w item doc outputDir) = Rejected e).
Proof.
  assert (Hfrom : forall (B : Type) (f : string -> M B) (xs : list string),
             outcome (Promise_all (settleTime w) (map (fun x => outcome (f x)) xs))
               = Rejected e ->
             exists item, In item xs /\ outcome (f item) = Rejected e).
  { intros B f xs H.
    destruct (forallb isResolved (map (fun x => outcome (f x)) xs)) eqn:E.
    - rewrite (Promise_all_fulfilled _ _ E) in H. discriminate.
    - destruct (Promise_all_rejected (settleTime w) _ E) as (e' & Hp & Hin).
      rewrite Hp in H. cbn in H. injection H as ->.
      apply in_map_iff in Hin. destruct Hin as (item & Hitem & Hin). eauto. }
  split.
  - unfold HelmDependencyUpdate.collectRows.
    rewrite outcome_bind. cbn [emit outcome fst].
    rewrite outcome_bind, outcome_map_async. apply Hfrom.
  - intros outputDir. unfold HelmTest.collectResults.
    rewrite outcome_bind, outcome_map_async.
    apply (Hfrom _ (fun item => HelmTest.processChart w item doc outputDir)).
Qed.

Lemma parallel_rejection_comes_from_a_chart_witness :
  exists item, In item (Object_keys Scenario.listingAB) /\
    outcome (HelmDependencyUpdate.parallelItem Scenario.throwsOnA Scenario.listingAB item)
      = Rejected (ErrorObj "boom").
Proof.
  apply (proj1 (parallel_rejection_comes_from_a_chart Scenario.throwsOnA
                  Scenario.listingAB (ErrorObj "boom"))).
  reflexivity.
Defined.

(** ** Validation: the loop and the filter *)






Lemma validateItem_calls (w : Collaborators) (doc : Listing) (V : bool)
    (changed : option StringSet) (item : string) (rows : list Row) :
  trace (ManifestValidation.validateItem w doc V changed item rows) =
  trace (ManifestValidation.validateItem w doc V changed item []).
Proof.
  unfold ManifestValidation.validateItem.
  destruct (ManifestValidation.notInChangedSet V changed item); [reflexivity|].
  destruct (unrapYamlbyKey doc item) as [entry|]; [|reflexivity].
  unfold utils.isFunctionEnabled, await. cbn [emit ret bind app].
  destruct (isFunctionEnabled w _ _ _); [|reflexivity].
  destruct (template w _ _ _); reflexivity.
Qed.

(** X15: the validation loop stops at the first chart whose processing
    throws: it ends with that throw, having made the calls of the charts up
    to and including that one and none for the charts after it. *)
Theorem validation_stops_at_first_throw
    (w : Collaborators) (doc : Listing) (V : bool) (changed : option StringSet)
    (pre : list string) (item : string) (post : list string) (e : Thrown) :
  Object_keys doc = (pre ++ item :: post)%list ->
  (forall x, In x pre ->
     isResolved (outcome (ManifestValidation.validateItem w doc V changed x [])) = true) ->
  outcome (ManifestValidation.validateItem w doc V changed item []) = Rejected e ->
  outcome (ManifestValidation.collectRows w doc V changed) = Rejected e /\
  trace (ManifestValidation.collectRows w doc V changed) =
    (flat_map (fun x => trace (ManifestValidation.validateItem w doc V changed x [])) pre
     ++ trace (ManifestValidation.validateItem w doc V changed item []))%list.
Proof.
  intros Hkeys Hpre Hitem. unfold ManifestValidation.collectRows. rewrite Hkeys.
  apply (for_of_stops_at_first_throw
           (fun x => outcome (ManifestValidation.validateItem w doc V changed x []))
           (fun x => trace (ManifestValidation.validateItem w doc V changed x []))
           (ManifestValidation.validateItem w doc V changed)
           (validateItem_appends w doc V changed)
           (validateItem_calls w doc V changed)); assumption.
Qed.

Lemma validation_stops_at_first_throw_witness :
  toolCalls (trace (ManifestValidation.collectRows Scenario.throwsOnA Scenario.listingAB
                      false None)) = ["/ws/charts/chartA"].
Proof.
  destruct (validation_stops_at_first_throw Scenario.throwsOnA Scenario.listingAB
              false None [] Scenario.chartA [Scenario.chartB] (ErrorObj "boom") eq_refl)
    as (_ & Ht).
  - intros x [].
  - reflexivity.
  - rewrite Ht. reflexivity.
Defined.

(** ** The order in which promises settle *)

Lemma same_refl {A} (m : M A) : sameButForTheThrow m m.
Proof. split; reflexivity. Qed.

Lemma same_bind {A B} (m m' : M A) (k k' : A -> M B) :
  sameButForTheThrow m m' ->
  (forall a, sameButForTheThrow (k a) (k' a)) ->
  sameButForTheThrow (bind m k) (bind m' k').
Proof.
  intros [Ht Ho] Hk. unfold sameButForTheThrow.
  rewrite !trace_bind, !outcome_bind, Ht.
  destruct (outcome m) as [a|e], (outcome m') as [a'|e']; cbn in Ho; try discriminate.
  - injection Ho as <-. destruct (Hk a) as [Hkt Hko]. rewrite Hkt. split; [reflexivity|exact Hko].
  - split; reflexivity.
Qed.

Lemma same_Promise_all {B} (settle settle' : nat -> nat) (ps : list (Outcome B)) :
  sameButForTheThrow (Promise_all settle ps) (Promise_all settle' ps).
Proof.
  split.
  - unfold Promise_all.
    destruct (firstRejection settle 0 ps None) as [[t e]|],
             (firstRejection settle' 0 ps None) as [[t' e']|]; reflexivity.
  - rewrite !resolvedValue_Promise_all. reflexivity.
Qed.

(** X16: the order in which the promises of a [Promise.all] settle changes
    nothing a run does except which of several throws reaches the catch
    clause: helm-test and dependency update make the same calls in the same
    order up to the end of the [try] block, and end it with the same value
    or both with a throw. *)
Theorem settle_order_changes_only_the_reported_throw
    (w : Collaborators) (settle : nat -> nat) :
  sameButForTheThrow (HelmTest.body (withSettleTime w settle)) (HelmTest.body w) /\
  sameButForTheThrow (HelmDependencyUpdate.body (withSettleTime w settle))
                     (HelmDependencyUpdate.body w).
Proof.
  split.
  - unfold HelmTest.body. apply same_bind; [|intros cr; apply same_refl].
    unfold HelmTest.results.
    apply same_bind; [apply same_refl|intros _].
    apply same_bind; [apply same_refl|intros content].
    apply same_bind; [apply same_refl|intros doc].
    apply same_bind; [apply same_refl|intros _].
    apply same_bind; [apply same_refl|intros _].
    apply same_bind; [|intros rs; apply same_refl].
    unfold HelmTest.collectResults.
    apply same_bind; [apply same_refl|intros ps]. apply same_Promise_all.
  - unfold HelmDependencyUpdate.body.
    apply same_bind; [apply same_refl|intros _].
    apply same_bind; [apply same_refl|intros content].
    apply same_bind; [apply same_refl|intros doc].
    apply same_bind; [apply same_refl|intros _].
    apply same_bind; [apply same_refl|intros _].
    apply same_bind; [apply same_refl|intros _].
    apply same_bind; [|intros rows; apply same_refl].
    unfold HelmDependencyUpdate.collectRows.
    destruct (HelmDependencyUpdate.parallelInput _); [|apply same_refl].
    apply same_bind; [apply same_refl|intros _].
    apply same_bind; [apply same_refl|intros ps]. apply same_Promise_all.
Qed.

(** ** The log group *)

Ltac not_endGroup := intros ?; discriminate.

Lemma bodies_leave_group_open (w : Collaborators) :
  quietWhenRejected (fun ev => ev <> core_endGroup) (ManifestValidation.body w) /\
  quietWhenRejected (fun ev => ev <> core_endGroup) (HelmTest.body w) /\
  quietWhenRejected (fun ev => ev <> core_endGroup) (HelmDependencyUpdate.body w).
Proof.
  split; [|split].
  - unfold ManifestValidation.body, ManifestValidation.validateAll,
      ManifestValidation.collectRows, ManifestValidation.validateItem,
      noListingEntry, utils.assertNullOrEmpty, utils.isFunctionEnabled.
    walk_quiet; try not_endGroup; try reflexivity.
    apply quiet_of_resolved. unfold ManifestValidation.summary_write_detached.
    destruct (summaryWrite w); reflexivity.
  - unfold HelmTest.body, HelmTest.results, HelmTest.report, HelmTest.collectResults,
      HelmTest.processChart, noListingEntry, utils.assertNullOrEmpty,
      utils.isFunctionEnabled.
    walk_quiet; try not_endGroup.
    destruct (Nat.ltb 0 _); reflexivity.
  - unfold HelmDependencyUpdate.body, HelmDependencyUpdate.collectRows,
      HelmDependencyUpdate.parallelItem, HelmDependencyUpdate.sequentialItem,
      noListingEntry, utils.assertNullOrEmpty, utils.isFunctionEnabled.
    walk_quiet; try not_endGroup; try reflexivity.
Qed.

(** X17: a run whose [try] block throws never calls [core.endGroup]: the
    log group it may have opened stays open. *)
Theorem throwing_run_leaves_group_open (w : Collaborators) (e : Thrown) :
  (outcome (ManifestValidation.body w) = Rejected e ->
     ~ In core_endGroup (trace (ManifestValidation.run w))) /\
  (outcome (HelmTest.body w) = Rejected e ->
     ~ In core_endGroup (trace (HelmTest.run w))) /\
  (outcome (HelmDependencyUpdate.body w) = Rejected e ->
     ~ In core_endGroup (trace (HelmDependencyUpdate.run w))).
Proof.
  assert (Hgen : forall body : M unit,
             quietWhenRejected (fun ev => ev <> core_endGroup) body ->
             outcome body = Rejected e ->
             ~ In core_endGroup (trace (try_catch body failOnError))).
  { intros body Hq Hrej Hin.
    rewrite trace_try_catch, Hrej in Hin. apply in_app_or in Hin.
    destruct Hin as [Hin|Hin].
    - specialize (Hq (rejected_not_resolved _ _ Hrej)).
      rewrite Forall_forall in Hq. apply (Hq _ Hin). reflexivity.
    - destruct e as [m|v]; cbn in Hin; [destruct Hin as [H|[]]; discriminate H | contradiction]. }
  destruct (bodies_leave_group_open w) as (Hv & Ht & Hd).
  split; [|split]; intros Hrej; apply Hgen; assumption.
Qed.

Lemma throwing_run_leaves_group_open_witness :
  In (core_startGroup "Helm Dependency Update")
     (trace (HelmDependencyUpdate.run Scenario.throwsOnA)) /\
  ~ In core_endGroup (trace (HelmDependencyUpdate.run Scenario.throwsOnA)).
Proof.
  split; [left; reflexivity|].
  apply (proj2 (proj2 (throwing_run_leaves_group_open Scenario.throwsOnA (ErrorObj "boom")))).
  reflexivity.
Defined.
